(** * The trading-signal service: [getTradeSignal] and [getRiskAssessment]

    A shallow embedding of the service that turns a series of closing prices
    (and, optionally, volumes) into a BUY / SELL / HOLD recommendation with a
    confidence, and of the volatility-based risk assessment that goes with it.

    JavaScript numbers are IEEE 754 binary64 values; they are modelled by
    Rocq's primitive floats, which are the same format with the same rounding,
    so that [NaN], signed zeros and rounding behave as they do in the source. *)

From Stdlib Require Import ZArith List String Bool Lia.
From Stdlib Require Import Floats.PrimFloat Floats.FloatOps Floats.SpecFloat.
From Stdlib Require Import DecimalString.
Import ListNotations.

#[local] Set Warnings "-inexact-float".

Local Open Scope string_scope.
Local Open Scope list_scope.

(** ** JavaScript numbers and the built-ins the service calls *)

Module JS.

(** [ToNumber]: [undefined] becomes [NaN]. *)
Definition num (o : option float) : float :=
  match o with
  | Some x => x
  | None => nan
  end.

(** [ToBoolean] on a number: [0], [-0] and [NaN] are falsy. *)
Definition truthy_number (x : float) : bool :=
  negb (PrimFloat.is_nan x || PrimFloat.eqb x 0%float).

(** [ToBoolean] on a number that may be [undefined]. *)
Definition truthy (o : option float) : bool :=
  match o with
  | Some x => truthy_number x
  | None => false
  end.

(** The relational operators; a comparison with [undefined] or [NaN] is
    false. *)
Definition lt (a b : option float) : bool := PrimFloat.ltb (num a) (num b).
Definition gt (a b : option float) : bool := PrimFloat.ltb (num b) (num a).
Definition le (a b : option float) : bool := PrimFloat.leb (num a) (num b).
Definition ge (a b : option float) : bool := PrimFloat.leb (num b) (num a).

(** [x || 0] on a number that may be [undefined]. *)
Definition or_zero (o : option float) : float :=
  if truthy o then num o else 0%float.

(** An integer held in a number (exact below [2^53]). *)
Definition of_Z (z : Z) : float :=
  SF2Prim (binary_normalize prec emax z 0 false).

(** [Math.min] on two numbers: [NaN] if either is [NaN], and [-0] is
    smaller than [+0]. *)
Definition Math_min (a b : float) : float :=
  if PrimFloat.is_nan a || PrimFloat.is_nan b then nan
  else if PrimFloat.ltb a b then a
  else if PrimFloat.ltb b a then b
  else if PrimFloat.get_sign a then a else b.

(** [Math.round]: the nearest integer, a tie going towards [+Infinity];
    [NaN], the infinities and the zeros are returned as they are, and a
    value in [[-0.5, 0)] gives [-0]. The value [m * 2^e] is rounded in
    exact integer arithmetic. *)
Definition Math_round (x : float) : float :=
  match Prim2SF x with
  | S754_finite s m e =>
      if (0 <=? e)%Z then x
      else
        let d := (2 ^ (- e))%Z in
        let sm := if s then Z.neg m else Z.pos m in
        let n := ((2 * sm + d) / (2 * d))%Z in
        if (n =? 0)%Z then (if s then (-0)%float else 0%float)
        else of_Z n
  | _ => x
  end.

Definition Math_sqrt (x : float) : float := PrimFloat.sqrt x.

(** [arr[arr.length - 1]]: [undefined] on the empty array. *)
Fixpoint last_elem {A : Type} (l : list A) : option A :=
  match l with
  | [] => None
  | [x] => Some x
  | _ :: l' => last_elem l'
  end.

(** [arr.slice(1)]. *)
Definition slice_from_1 {A : Type} (l : list A) : list A := tl l.

(** [arr.slice(-n)]: the last [n] elements, or all of them. *)
Definition slice_last {A : Type} (n : nat) (l : list A) : list A :=
  skipn (List.length l - n) l.

(** [arr.map((x, i) => f(x, i))]. *)
Fixpoint mapi_from {A B : Type} (i : nat) (f : A -> nat -> B) (l : list A)
  : list B :=
  match l with
  | [] => []
  | x :: l' => f x i :: mapi_from (S i) f l'
  end.

Definition mapi {A B : Type} (f : A -> nat -> B) (l : list A) : list B :=
  mapi_from 0 f l.

(** [arr.reduce((a, b) => f(a, b), init)]. *)
Definition reduce {A B : Type} (f : B -> A -> B) (init : B) (l : list A)
  : B := fold_left f l init.

(** [s.includes(sub)]. *)
Fixpoint includes (s sub : string) : bool :=
  String.prefix sub s
  || match s with
     | EmptyString => false
     | String _ s' => includes s' sub
     end.

(** [arr.join(sep)]. *)
Definition join (sep : string) (l : list string) : string :=
  String.concat sep l.

(** The decimal digits of a non-negative integer. *)
Definition digits (n : Z) : string :=
  NilZero.string_of_uint (N.to_uint (Z.to_N n)).

Fixpoint zeros (k : nat) : string :=
  match k with
  | O => EmptyString
  | S k' => ("0" ++ zeros k')%string
  end.

(** The integer [n], read as [n / 10^f], printed with [f] decimals. *)
Definition fixed_string (n : Z) (f : nat) : string :=
  let m := digits n in
  if (f =? 0)%nat then m
  else
    let m :=
      if (String.length m <=? f)%nat
      then (zeros (f + 1 - String.length m) ++ m)%string
      else m in
    let k := String.length m in
    (substring 0 (k - f) m ++ "." ++ substring (k - f) f m)%string.

(** [x.toFixed(f)]: the magnitude [m * 2^e] is scaled by [10^f] and
    rounded to the nearest integer in exact arithmetic, a tie going up.
    (A magnitude of [10^21] or more is printed by JavaScript in exponent
    notation instead; here it is printed in full.) *)
Definition toFixed (x : float) (f : nat) : string :=
  match Prim2SF x with
  | S754_nan => "NaN"
  | S754_infinity s => if s then "-Infinity" else "Infinity"
  | S754_zero _ => fixed_string 0 f
  | S754_finite s m e =>
      let scale := (10 ^ Z.of_nat f)%Z in
      let n :=
        if (0 <=? e)%Z then (Z.pos m * 2 ^ e * scale)%Z
        else ((2 * Z.pos m * scale + 2 ^ (- e)) / (2 * 2 ^ (- e)))%Z in
      ((if s then "-" else "") ++ fixed_string n f)%string
  end.

(** What a block of statements does: it returns a value or throws. *)
Inductive outcome (A : Type) : Type :=
| Returned (a : A)
| Thrown (e : string).
Arguments Returned {A} a.
Arguments Thrown {A} e.

Definition bind {A B : Type} (c : outcome A) (k : A -> outcome B)
  : outcome B :=
  match c with
  | Returned a => k a
  | Thrown e => Thrown e
  end.

(** [try { body } catch (error) { return handler }]. *)
Definition try_catch {A : Type} (body : outcome A) (handler : A) : A :=
  match body with
  | Returned a => a
  | Thrown _ => handler
  end.

End JS.

Notation "'let*' x ':=' c 'in' k" := (JS.bind c (fun x => k))
  (at level 10, x name, c at level 100, k at level 200).

Import JS.

(** ** The indicator package

    The service imports [RSI], [MACD], [BollingerBands], [SMA] and [EMA] from
    the package [technicalindicators]. Each [calculate] takes the series and
    its periods and returns an array (or throws); the service only reads the
    last element of each array. The package is an interface here, and the
    service is stated over every implementation of it. *)

Module TI.

(** An element of [MACD.calculate]'s result; each field may be
    [undefined]. *)
Record MACDOutput : Type := {
  MACD : option float;
  signal : option float;
  histogram : option float
}.

(** An element of [BollingerBands.calculate]'s result. *)
Record BollingerBandsOutput : Type := {
  upper : float;
  middle : float;
  lower : float
}.

End TI.

Class TechnicalIndicators : Type := {
  RSI_calculate : list float -> nat -> outcome (list float);
  MACD_calculate :
    list float -> nat -> nat -> nat -> bool -> bool ->
    outcome (list TI.MACDOutput);
  BollingerBands_calculate :
    list float -> nat -> float -> outcome (list TI.BollingerBandsOutput);
  SMA_calculate : list float -> nat -> outcome (list float);
  EMA_calculate : list float -> nat -> outcome (list float)
}.

(** ** The data model: [TradingSignal] *)

Inductive Signal : Type := BUY | SELL | HOLD.

Module Snapshot.

(** The [macd] field of the snapshot: all three numbers are present. *)
Record macd_t : Type := {
  MACD : float;
  signal : float;
  histogram : float
}.

End Snapshot.

Record Indicators : Type := {
  rsi : float;
  macd : option Snapshot.macd_t;
  bollingerBands : option TI.BollingerBandsOutput;
  sma20 : float;
  ema12 : float
}.

(** [timestamp] is the reading of the clock ([new Date()]), in milliseconds
    since the epoch. *)
Record TradingSignal : Type := {
  signal : Signal;
  confidence : float;
  reason : string;
  indicators : Indicators;
  timestamp : Z
}.

Inductive RiskLevel : Type := LOW | MEDIUM | HIGH.

Record RiskAssessment : Type := {
  riskLevel : RiskLevel;
  volatility : float;
  recommendation : string
}.

(** ** [getTradeSignal] *)

(** The latest value of each indicator, as read from the end of the arrays
    the package returned; [undefined] when an array is empty. *)
Record Latest : Type := {
  latestRSI : option float;
  latestMACD : option TI.MACDOutput;
  latestBB : option TI.BollingerBandsOutput;
  latestSMA20 : option float;
  latestEMA12 : option float;
  currentPrice : option float
}.

(** The three local variables the analysis updates. The two counters only
    ever hold small non-negative integers, which numbers represent exactly;
    they are integers here and become numbers where the source divides. *)
Record Votes : Type := {
  buySignals : Z;
  sellSignals : Z;
  reasons : list string
}.

Definition initialVotes : Votes :=
  {| buySignals := 0; sellSignals := 0; reasons := [] |}.

(** [buySignals += w; reasons.push(r)] and its counterpart. *)
Definition voteBuy (w : Z) (r : string) (v : Votes) : Votes :=
  {| buySignals := buySignals v + w;
     sellSignals := sellSignals v;
     reasons := reasons v ++ [r] |}.

Definition voteSell (w : Z) (r : string) (v : Votes) : Votes :=
  {| buySignals := buySignals v;
     sellSignals := sellSignals v + w;
     reasons := reasons v ++ [r] |}.

(** The test [latestMACD && latestMACD.MACD !== undefined &&
    latestMACD.signal !== undefined && latestMACD.histogram !== undefined],
    with the three numbers it guards. *)
Definition macdDefined (m : option TI.MACDOutput) : option Snapshot.macd_t :=
  match m with
  | Some {| TI.MACD := Some a; TI.signal := Some b; TI.histogram := Some c |} =>
      Some {| Snapshot.MACD := a; Snapshot.signal := b;
              Snapshot.histogram := c |}
  | _ => None
  end.

Definition insufficientDataSignal (now : Z) : TradingSignal :=
  {| signal := HOLD;
     confidence := 0%float;
     reason :=
       "Insufficient data for analysis (minimum 50 data points required)";
     indicators :=
       {| rsi := 0%float; macd := None; bollingerBands := None;
          sma20 := 0%float; ema12 := 0%float |};
     timestamp := now |}.

Definition errorSignal (now : Z) : TradingSignal :=
  {| signal := HOLD;
     confidence := 0%float;
     reason := "Error computing signal. Please try again.";
     indicators :=
       {| rsi := 0%float; macd := None; bollingerBands := None;
          sma20 := 0%float; ema12 := 0%float |};
     timestamp := now |}.

Section TradeSignal.

Context {lib : TechnicalIndicators}.

(** [Number.prototype.toFixed]. *)
Variable toFixed : float -> nat -> string.

(** Calculate technical indicators, then get latest values. *)
Definition computeLatest (prices : list float) : outcome Latest :=
  let* rsiValues := RSI_calculate prices 14 in
  let* macdValues := MACD_calculate prices 12 26 9 false false in
  let* bbValues := BollingerBands_calculate prices 20 2%float in
  let* sma20Values := SMA_calculate prices 20 in
  let* ema12Values := EMA_calculate prices 12 in
  Returned
    {| latestRSI := last_elem rsiValues;
       latestMACD := last_elem macdValues;
       latestBB := last_elem bbValues;
       latestSMA20 := last_elem sma20Values;
       latestEMA12 := last_elem ema12Values;
       currentPrice := last_elem prices |}.

(** RSI Analysis *)
Definition rsiAnalysis (l : Latest) (v : Votes) : Votes :=
  if truthy (latestRSI l) && lt (latestRSI l) (Some 30%float) then
    voteBuy 2 ("RSI oversold at " ++ toFixed (num (latestRSI l)) 2)%string v
  else if truthy (latestRSI l) && gt (latestRSI l) (Some 70%float) then
    voteSell 2 ("RSI overbought at " ++ toFixed (num (latestRSI l)) 2)%string
      v
  else v.

(** MACD Analysis *)
Definition macdAnalysis (l : Latest) (v : Votes) : Votes :=
  match macdDefined (latestMACD l) with
  | Some m =>
      if PrimFloat.ltb (Snapshot.signal m) (Snapshot.MACD m)
         && PrimFloat.ltb 0%float (Snapshot.histogram m)
      then voteBuy 1 "MACD bullish crossover" v
      else if PrimFloat.ltb (Snapshot.MACD m) (Snapshot.signal m)
              && PrimFloat.ltb (Snapshot.histogram m) 0%float
      then voteSell 1 "MACD bearish crossover" v
      else v
  | None => v
  end.

(** Bollinger Bands Analysis *)
Definition bollingerAnalysis (l : Latest) (v : Votes) : Votes :=
  match latestBB l with
  | Some bb =>
      if le (currentPrice l) (Some (TI.lower bb)) then
        voteBuy 1 "Price touching lower Bollinger Band" v
      else if ge (currentPrice l) (Some (TI.upper bb)) then
        voteSell 1 "Price touching upper Bollinger Band" v
      else v
  | None => v
  end.

(** Moving Average Analysis *)
Definition movingAverageAnalysis (l : Latest) (v : Votes) : Votes :=
  if gt (currentPrice l) (latestSMA20 l)
     && gt (latestEMA12 l) (latestSMA20 l)
  then voteBuy 1 "Price above SMA20 with EMA12 bullish" v
  else if lt (currentPrice l) (latestSMA20 l)
          && lt (latestEMA12 l) (latestSMA20 l)
  then voteSell 1 "Price below SMA20 with EMA12 bearish" v
  else v.

(** Volume Analysis (if available) *)
Definition volumeAnalysis (volumes : option (list float)) (v : Votes)
  : Votes :=
  match volumes with
  | Some vols =>
      if (20 <=? List.length vols)%nat then
        let avgVolume :=
          (reduce PrimFloat.add 0 (slice_last 20 vols) / 20)%float in
        let currentVolume := last_elem vols in
        if gt currentVolume (Some (avgVolume * 1.5)%float) then
          if (buySignals v >? sellSignals v)%Z then
            voteBuy 1 "High volume supporting bullish trend" v
          else if (sellSignals v >? buySignals v)%Z then
            voteSell 1 "High volume supporting bearish trend" v
          else v
        else v
      else v
  | None => v
  end.

(** The votes just before the volume check, and after it. *)
Definition votesBeforeVolume (l : Latest) : Votes :=
  movingAverageAnalysis l
    (bollingerAnalysis l (macdAnalysis l (rsiAnalysis l initialVotes))).

Definition accumulateVotes (l : Latest) (volumes : option (list float))
  : Votes :=
  volumeAnalysis volumes (votesBeforeVolume l).

(** Determine final signal: the direction, the confidence before it is
    rounded, and the reason. *)
Definition finalSignal (v : Votes) : Signal * float * string :=
  let totalSignals := (buySignals v + sellSignals v)%Z in
  if (buySignals v >? sellSignals v)%Z && (buySignals v >=? 2)%Z then
    (BUY,
     Math_min 90
       (of_Z (buySignals v) / of_Z (Z.max totalSignals 1) * 100)%float,
     ("Strong buy signal: "
      ++ join ", "
           (filter
              (fun r =>
                 includes r "RSI oversold" || includes r "MACD bullish"
                 || includes r "lower Bollinger")
              (reasons v)))%string)
  else if (sellSignals v >? buySignals v)%Z && (sellSignals v >=? 2)%Z then
    (SELL,
     Math_min 90
       (of_Z (sellSignals v) / of_Z (Z.max totalSignals 1) * 100)%float,
     ("Strong sell signal: "
      ++ join ", "
           (filter
              (fun r =>
                 includes r "RSI overbought" || includes r "MACD bearish"
                 || includes r "upper Bollinger")
              (reasons v)))%string)
  else
    (HOLD, 50%float,
     ("Mixed signals or insufficient conviction. "
      ++ "Consider waiting for clearer trend.")%string).

(** The object returned at the end of the [try] block. *)
Definition buildSignal (now : Z) (l : Latest) (v : Votes) : TradingSignal :=
  let '(sig, conf, finalReason) := finalSignal v in
  {| signal := sig;
     confidence := Math_round conf;
     reason := finalReason;
     indicators :=
       {| rsi := or_zero (latestRSI l);
          macd := macdDefined (latestMACD l);
          bollingerBands := latestBB l;
          sma20 := or_zero (latestSMA20 l);
          ema12 := or_zero (latestEMA12 l) |};
     timestamp := now |}.

(** The body of the [try] block. *)
Definition tradeSignalBody (now : Z) (prices : list float)
  (volumes : option (list float)) : outcome TradingSignal :=
  if (List.length prices <? 50)%nat then
    Returned (insufficientDataSignal now)
  else
    let* l := computeLatest prices in
    Returned (buildSignal now l (accumulateVotes l volumes)).

(** [getTradeSignal(prices, volumes?)], called when the clock reads
    [now]. The [catch] block also logs the error on the console. *)
Definition getTradeSignal (now : Z) (prices : list float)
  (volumes : option (list float)) : TradingSignal :=
  try_catch (tradeSignalBody now prices volumes) (errorSignal now).

End TradeSignal.

(** ** [getRiskAssessment] *)

Definition riskFallback : RiskAssessment :=
  {| riskLevel := HIGH;
     volatility := 0%float;
     recommendation := "Unable to assess risk. Exercise maximum caution." |}.

Definition cautionClause : string :=
  " Low signal confidence suggests increased caution.".

Section RiskAssessment.

(** [Math.pow]. *)
Variable Math_pow : float -> float -> float.

(** Calculate volatility (standard deviation of returns) *)
Definition computeVolatility (prices : list float) : float :=
  let returns :=
    mapi
      (fun price i =>
         ((price - num (nth_error prices i)) / num (nth_error prices i))
           %float)
      (slice_from_1 prices) in
  let avgReturn :=
    (reduce PrimFloat.add 0 returns
     / of_Z (Z.of_nat (List.length returns)))%float in
  let variance :=
    (reduce (fun a b => a + Math_pow (b - avgReturn) 2) 0 returns
     / of_Z (Z.of_nat (List.length returns)))%float in
  (Math_sqrt variance * 100)%float.

(** The tier and the text chosen from the volatility alone. *)
Definition classifyVolatility (vol : float) : RiskLevel * string :=
  if PrimFloat.ltb vol 2 then
    (LOW,
     "Market showing low volatility. Good for conservative strategies.")
  else if PrimFloat.ltb vol 5 then
    (MEDIUM,
     "Moderate volatility detected. Use appropriate position sizing.")
  else
    (HIGH,
     ("High volatility warning! "
      ++ "Consider reducing position size or waiting for stability.")
       %string).

(** Adjust recommendation based on signal confidence *)
Definition adjustForConfidence (sig : TradingSignal)
  (r : RiskLevel * string) : RiskLevel * string :=
  let '(level, text) := r in
  if PrimFloat.ltb (confidence sig) 60 then
    (match level with LOW => MEDIUM | _ => HIGH end,
     (text ++ cautionClause)%string)
  else (level, text).

(** The body of the [try] block: no statement of it throws. *)
Definition riskBody (prices : list float) (sig : TradingSignal)
  : outcome RiskAssessment :=
  let vol := computeVolatility prices in
  let '(level, text) := adjustForConfidence sig (classifyVolatility vol) in
  Returned
    {| riskLevel := level;
       volatility := (Math_round (vol * 100) / 100)%float;
       recommendation := text |}.

(** [getRiskAssessment(prices, signal)]. *)
Definition getRiskAssessment (prices : list float) (sig : TradingSignal)
  : RiskAssessment :=
  try_catch (riskBody prices sig) riskFallback.

End RiskAssessment.

(** The order of the tiers, LOW < MEDIUM < HIGH. *)
Definition tierRank (r : RiskLevel) : Z :=
  match r with
  | LOW => 0
  | MEDIUM => 1
  | HIGH => 2
  end.

(** One tier up, HIGH staying HIGH. *)
Definition escalate (r : RiskLevel) : RiskLevel :=
  match r with
  | LOW => MEDIUM
  | MEDIUM => HIGH
  | HIGH => HIGH
  end.

(** ** The indicators, from their description *)

Module SpecIndicators.

Local Open Scope float_scope.

Definition mean (l : list float) : float :=
  reduce PrimFloat.add 0 l / of_Z (Z.of_nat (List.length l)).

(** Every run of [n] consecutive values, oldest first. *)
Fixpoint windows (n : nat) (l : list float) : list (list float) :=
  match l with
  | [] => []
  | _ :: l' =>
      if (n <=? List.length l)%nat then firstn n l :: windows n l' else []
  end.

(** Modelled from the spec: the package [technicalindicators] is not among
    the sources; the standard deviation of a Bollinger window is the
    population standard deviation. *)
Definition stddev (l : list float) : float :=
  let m := mean l in
  PrimFloat.sqrt (mean (map (fun x => (x - m) * (x - m)) l)).

(** Modelled from the spec: [SMA.calculate] of the missing package, the
    simple average of every window of [n] prices; no value while the series
    is shorter than the window. *)
Definition sma (n : nat) (l : list float) : list float :=
  map mean (windows n l).

Fixpoint ema_from (k prev : float) (l : list float) : list float :=
  match l with
  | [] => []
  | x :: l' =>
      let e := (x - prev) * k + prev in
      e :: ema_from k e l'
  end.

(** Modelled from the spec: [EMA.calculate] of the missing package,
    exponential smoothing with factor [2 / (n + 1)], started from the simple
    average of the first [n] values. *)
Definition ema (n : nat) (l : list float) : list float :=
  if (n <=? List.length l)%nat && (0 <? n)%nat then
    let seed := mean (firstn n l) in
    seed :: ema_from (2 / of_Z (Z.of_nat n + 1)) seed (skipn n l)
  else [].

(** Modelled from the spec: [BollingerBands.calculate] of the missing
    package; the middle is the simple average of the window and the bands
    are the middle plus or minus [width] standard deviations. *)
Definition bollinger (n : nat) (width : float) (l : list float)
  : list TI.BollingerBandsOutput :=
  map
    (fun w =>
       let m := mean w in
       let sd := stddev w in
       {| TI.upper := m + width * sd;
          TI.middle := m;
          TI.lower := m - width * sd |})
    (windows n l).

Fixpoint zip_sub (a b : list float) : list float :=
  match a, b with
  | x :: a', y :: b' => (x - y) :: zip_sub a' b'
  | _, _ => []
  end.

(** The MACD line is [EMA fast - EMA slow]; the signal is the EMA of the
    line and is absent until the line has [signalPeriod] values. *)
Fixpoint macd_rows (line : list float) (pending : nat) (sig : list float)
  : list TI.MACDOutput :=
  match line with
  | [] => []
  | m :: line' =>
      match pending, sig with
      | O, s :: sig' =>
          {| TI.MACD := Some m; TI.signal := Some s;
             TI.histogram := Some (m - s) |}
          :: macd_rows line' O sig'
      | _, _ =>
          {| TI.MACD := Some m; TI.signal := None; TI.histogram := None |}
          :: macd_rows line' (pred pending) sig
      end
  end.

(** Modelled from the spec: [MACD.calculate] of the missing package, with
    exponential smoothing for both the line and the signal. *)
Definition macd (fast slow signalPeriod : nat) (l : list float)
  : list TI.MACDOutput :=
  let line := zip_sub (skipn (slow - fast) (ema fast l)) (ema slow l) in
  macd_rows line (pred signalPeriod) (ema signalPeriod line).

Fixpoint deltas (l : list float) : list float :=
  match l with
  | x :: ((y :: _) as l') => (y - x) :: deltas l'
  | _ => []
  end.

Definition gain (d : float) : float := if PrimFloat.ltb 0 d then d else 0.
Definition loss (d : float) : float := if PrimFloat.ltb d 0 then - d else 0.

(** Modelled from the spec: the RSI of the missing package, a value in
    [0,100]: 100 when there is no loss, and [100 - 100 / (1 + RS)] for the
    ratio [RS] of the average gain to the average loss otherwise. *)
Definition rsi_value (avgGain avgLoss : float) : float :=
  if PrimFloat.eqb avgLoss 0 then 100
  else 100 - 100 / (1 + avgGain / avgLoss).

(** Wilder's smoothing of the average gain and loss. *)
Fixpoint rsi_from (n : float) (avgGain avgLoss : float) (ds : list float)
  : list float :=
  match ds with
  | [] => []
  | d :: ds' =>
      let g := (avgGain * (n - 1) + gain d) / n in
      let s := (avgLoss * (n - 1) + loss d) / n in
      rsi_value g s :: rsi_from n g s ds'
  end.

(** Modelled from the spec: [RSI.calculate] of the missing package, over
    the price-to-price deltas, the first averages being simple averages of
    [n] deltas and the later ones Wilder's. *)
Definition rsi (n : nat) (l : list float) : list float :=
  let ds := deltas l in
  if (n <=? List.length ds)%nat && (0 <? n)%nat then
    let g := mean (map gain (firstn n ds)) in
    let s := mean (map loss (firstn n ds)) in
    rsi_value g s :: rsi_from (of_Z (Z.of_nat n)) g s (skipn n ds)
  else [].

End SpecIndicators.

(** Modelled from the spec: the package [technicalindicators] that provides
    [RSI], [MACD], [BollingerBands], [SMA] and [EMA] is not among the
    sources. Its indicators are taken from their description: RSI is
    Wilder's smoothed average of gains and losses over 14 deltas, with a
    value in [0,100]; the MACD line is EMA12 - EMA26, its signal the EMA9 of
    the line and its histogram their difference; the Bollinger middle is
    SMA20 and the bands are the middle plus or minus two standard deviations
    of the window; an indicator whose window exceeds the series is absent.
    No call throws. *)
#[local] Instance specIndicators : TechnicalIndicators := {
  RSI_calculate values period := Returned (SpecIndicators.rsi period values);
  MACD_calculate values fastPeriod slowPeriod signalPeriod _ _ :=
    Returned (SpecIndicators.macd fastPeriod slowPeriod signalPeriod values);
  BollingerBands_calculate values period stdDev :=
    Returned (SpecIndicators.bollinger period stdDev values);
  SMA_calculate values period := Returned (SpecIndicators.sma period values);
  EMA_calculate values period := Returned (SpecIndicators.ema period values)
}.

(** Series of whole prices, for the scenarios. *)
Fixpoint descending (n : nat) : list float :=
  match n with
  | O => []
  | S n' => of_Z (Z.of_nat n) :: descending n'
  end.

Definition ascending (n : nat) : list float := rev (descending n).

Definition constantSeries (n : nat) (p : float) : list float := repeat p n.

(** [grows w v v']: from [v] to [v'] no counter went down and together
    they went up by at most [w]. *)
Definition grows (w : Z) (v v' : Votes) : Prop :=
  (buySignals v <= buySignals v')%Z
  /\ (sellSignals v <= sellSignals v')%Z
  /\ (buySignals v' + sellSignals v'
      <= buySignals v + sellSignals v + w)%Z.

(** The confidence as an integer: the share [won / total] in percent,
    rounded to the nearest integer (a tie going up) and capped at 90. *)
Definition confidenceInt (won total : Z) : Z :=
  Z.min 90 ((200 * won + total) / (2 * total)).

(** The latest indicator values of a series under the indicators above
    (all [undefined] if a call threw). *)
Definition noLatest : Latest :=
  {| latestRSI := None; latestMACD := None; latestBB := None;
     latestSMA20 := None; latestEMA12 := None; currentPrice := None |}.

Definition specLatest (prices : list float) : Latest :=
  match computeLatest prices with
  | Returned l => l
  | Thrown _ => noLatest
  end.

(** 59 rising prices and a fall to 30, and 20 volumes ending in a spike. *)
Definition tiedSeries : list float := ascending 59 ++ [30%float].

Definition spikeVolumes : list float :=
  constantSeries 19 10%float ++ [100%float].

(** What one rule does to the votes: nothing, or one vote of weight [w]
    for one side together with one reason. *)
Definition oneVote (w : Z) (v v' : Votes) : Prop :=
  v' = v \/ exists r, v' = voteBuy w r v \/ v' = voteSell w r v.

(** An indicator package whose [EMA.calculate] throws. *)
Definition throwingIndicators : TechnicalIndicators :=
  {| RSI_calculate := @RSI_calculate specIndicators;
     MACD_calculate := @MACD_calculate specIndicators;
     BollingerBands_calculate := @BollingerBands_calculate specIndicators;
     SMA_calculate := @SMA_calculate specIndicators;
     EMA_calculate := fun _ _ => Thrown "Invalid period" |}.

(** ** The market-data client ([fetchCryptoData]) *)

Module Api.

Definition COINGECKO_BASE_URL : string :=
  "https://api.coingecko.com/api/v3".

(** Each point of a series is an array [[timestamp, value]]. *)
Record CryptoData : Type := {
  prices : list (list float);
  market_caps : list (list float);
  total_volumes : list (list float)
}.

(** The URL and the query parameters handed to [axios.get]. *)
Record Request : Type := {
  url : string;
  params : list (string * string)
}.

Record Response : Type := {
  data : CryptoData
}.

(** The request of [fetchCryptoData]: the market chart of the coin, by the
    hour for one day and by the day otherwise. *)
Definition marketChartRequest (coinId days vsCurrency : string) : Request :=
  {| url :=
       (COINGECKO_BASE_URL ++ "/coins/" ++ coinId ++ "/market_chart")%string;
     params :=
       [("vs_currency", vsCurrency);
        ("days", days);
        ("interval", if String.eqb days "1" then "hourly" else "daily")] |}.

(** [fetchCryptoData(coinId = 'bitcoin', days = '1', vsCurrency = 'usd')];
    [get] is what [axios.get] does for this call: it resolves to a
    response or rejects. An absent argument takes its default. The
    [catch] block also logs the error on the console. *)
Definition fetchCryptoData (get : Request -> outcome Response)
  (coinId days vsCurrency : option string) : outcome CryptoData :=
  let coinId := match coinId with Some c => c | None => "bitcoin" end in
  let days := match days with Some d => d | None => "1" end in
  let vsCurrency := match vsCurrency with Some c => c | None => "usd" end in
  match get (marketChartRequest coinId days vsCurrency) with
  | Returned response => Returned (data response)
  | Thrown _ => Thrown ("Failed to fetch data for " ++ coinId)%string
  end.

End Api.

(** ** The hook [useTradingData] *)

Module UseTradingData.

Record TradingDataState : Type := {
  data : option Api.CryptoData;
  loading : bool;
  error : option string;
  lastUpdated : option Z
}.

(** The state the hook starts in. *)
Definition initialState : TradingDataState :=
  {| data := None; loading := true; error := None; lastUpdated := None |}.

(** The three state updates of [fetchData], in the order they are queued:
    the one before the request, and the one of the [try] block or the one
    of the [catch] block after it. *)
Inductive Update : Type :=
| Started
| Succeeded (result : Api.CryptoData) (now : Z)
| Failed (message : option string).

(** [err.message || 'Failed to fetch trading data']. *)
Definition errorMessage (message : option string) : string :=
  match message with
  | Some m => if String.eqb m "" then "Failed to fetch trading data" else m
  | None => "Failed to fetch trading data"
  end.

(** One [setState]. *)
Definition update (st : TradingDataState) (u : Update) : TradingDataState :=
  match u with
  | Started =>
      {| data := data st; loading := true; error := None;
         lastUpdated := lastUpdated st |}
  | Succeeded result now =>
      {| data := Some result; loading := false; error := None;
         lastUpdated := Some now |}
  | Failed message =>
      {| data := data st; loading := false;
         error := Some (errorMessage message);
         lastUpdated := lastUpdated st |}
  end.

(** The updates are applied in the order they were queued. *)
Definition updates (us : list Update) (st : TradingDataState)
  : TradingDataState := fold_left update us st.

(** The updates one call of [fetchData] queues; [get] is what the network
    does for this call and [now] what the clock reads when it resolves. *)
Definition fetchData (get : Api.Request -> outcome Api.Response) (now : Z)
  (coinId days : string) : list Update :=
  [ Started;
    match Api.fetchCryptoData get (Some coinId) (Some days) None with
    | Returned result => Succeeded result now
    | Thrown message => Failed (Some message)
    end ].

(** What every update keeps. *)
Definition consistent (st : TradingDataState) : Prop :=
  (data st = None <-> lastUpdated st = None)
  /\ error st <> Some ""
  /\ (error st <> None -> loading st = false)
  /\ (loading st = false -> data st <> None \/ error st <> None).

(** [state.data?.prices?.map(([, price]) => price) || []] and the two
    arrays beside it. A point too short to have the component is
    [undefined] in the result. *)
Definition prices (st : TradingDataState) : list (option float) :=
  match data st with
  | Some d => map (fun point => nth_error point 1) (Api.prices d)
  | None => []
  end.

Definition timestamps (st : TradingDataState) : list (option float) :=
  match data st with
  | Some d => map (fun point => nth_error point 0) (Api.prices d)
  | None => []
  end.

Definition volumes (st : TradingDataState) : list (option float) :=
  match data st with
  | Some d => map (fun point => nth_error point 1) (Api.total_volumes d)
  | None => []
  end.

(** [arr[i]] on an array with holes: [undefined] out of range too. *)
Definition at_index (l : list (option float)) (i : nat) : option float :=
  match nth_error l i with
  | Some x => x
  | None => None
  end.

(** [prices[prices.length - 1] || 0] *)
Definition getCurrentPrice (st : TradingDataState) : float :=
  or_zero (at_index (prices st) (List.length (prices st) - 1)).

Definition getPriceChange (st : TradingDataState) : float :=
  if (List.length (prices st) <? 2)%nat then 0%float
  else
    let current := num (at_index (prices st) (List.length (prices st) - 1)) in
    let previous :=
      num (at_index (prices st) (List.length (prices st) - 2)) in
    ((current - previous) / previous * 100)%float.

Definition getPriceChangeFromStart (st : TradingDataState) : float :=
  if (List.length (prices st) <? 2)%nat then 0%float
  else
    let current := num (at_index (prices st) (List.length (prices st) - 1)) in
    let start := num (at_index (prices st) 0) in
    ((current - start) / start * 100)%float.

End UseTradingData.

(** ** The panel [TradeBot] *)

Module TradeBot.

(** The memoised [analysis]: [null], or the signal and its risk. The hook
    always hands over an array of volumes. *)
Definition analysis {lib : TechnicalIndicators}
  (toFixed : float -> nat -> string) (Math_pow : float -> float -> float)
  (now : Z) (data : option Api.CryptoData) (prices volumes : list float)
  : option (TradingSignal * RiskAssessment) :=
  match data with
  | None => None
  | Some _ =>
      if (List.length prices <? 50)%nat then None
      else
        let signal := getTradeSignal toFixed now prices (Some volumes) in
        let risk := getRiskAssessment Math_pow prices signal in
        Some (signal, risk)
  end.

(** The colour of the confidence chip and bar. *)
Definition confidenceColor (confidence : float) : string :=
  if PrimFloat.leb 70 confidence then "success"
  else if PrimFloat.leb 50 confidence then "warning"
  else "error".

End TradeBot.

(** ** The Firebase configuration *)

Module Firebase.

(** The six variables of the environment the configuration reads. *)
Definition variables : list string :=
  [ "NEXT_PUBLIC_FIREBASE_API_KEY";
    "NEXT_PUBLIC_FIREBASE_AUTH_DOMAIN";
    "NEXT_PUBLIC_FIREBASE_PROJECT_ID";
    "NEXT_PUBLIC_FIREBASE_STORAGE_BUCKET";
    "NEXT_PUBLIC_FIREBASE_MESSAGING_SENDER_ID";
    "NEXT_PUBLIC_FIREBASE_APP_ID" ].

Record Config : Type := {
  apiKey : string;
  authDomain : string;
  projectId : string;
  storageBucket : string;
  messagingSenderId : string;
  appId : string
}.

(** [process.env.NAME || '']: a variable that is not set, or is empty,
    gives the empty string. *)
Definition env_or_empty (env : string -> option string) (name : string)
  : string :=
  match env name with
  | Some value => value
  | None => ""
  end.

Definition firebaseConfig (env : string -> option string) : Config :=
  {| apiKey := env_or_empty env "NEXT_PUBLIC_FIREBASE_API_KEY";
     authDomain := env_or_empty env "NEXT_PUBLIC_FIREBASE_AUTH_DOMAIN";
     projectId := env_or_empty env "NEXT_PUBLIC_FIREBASE_PROJECT_ID";
     storageBucket := env_or_empty env "NEXT_PUBLIC_FIREBASE_STORAGE_BUCKET";
     messagingSenderId :=
       env_or_empty env "NEXT_PUBLIC_FIREBASE_MESSAGING_SENDER_ID";
     appId := env_or_empty env "NEXT_PUBLIC_FIREBASE_APP_ID" |}.

(** [Object.values(firebaseConfig)] *)
Definition values (c : Config) : list string :=
  [ apiKey c; authDomain c; projectId c; storageBucket c;
    messagingSenderId c; appId c ].

(** [Object.values(firebaseConfig).every(value => value !== '')] *)
Definition isConfigComplete (env : string -> option string) : bool :=
  forallb (fun value => negb (String.eqb value ""))
    (values (firebaseConfig env)).

(** What the module writes with [console.warn] when it is loaded. *)
Definition warnings (env : string -> option string) : list string :=
  if negb (isConfigComplete env) then
    [ ("Firebase configuration is incomplete. "
       ++ "Some features may not work properly.")%string;
      ("Please update your .env.local file "
       ++ "with your Firebase project credentials.")%string ]
  else [].

End Firebase.

(** Prices going up and down by turns. *)
Fixpoint alternating (n : nat) (a b : float) : list float :=
  match n with
  | O => []
  | S n' => a :: alternating n' b a
  end.

(** The period-over-period returns whose deviation [getRiskAssessment]
    takes: the first statement of its [try] block. *)
Definition periodReturns (prices : list float) : list float :=
  mapi
    (fun price i =>
       ((price - num (nth_error prices i)) / num (nth_error prices i))%float)
    (slice_from_1 prices).

(** Three points of a market chart, as [[timestamp, price]]. *)
Definition threePoints : UseTradingData.TradingDataState :=
  {| UseTradingData.data :=
       Some
         {| Api.prices :=
              [[1%float; 100%float]; [2%float; 110%float];
               [3%float; 121%float]];
            Api.market_caps := [];
            Api.total_volumes := [] |};
     UseTradingData.loading := false;
     UseTradingData.error := None;
     UseTradingData.lastUpdated := Some 0%Z |}.

(** * Properties *)

(** ** The built-ins on sample values *)

Example Math_round_half_up : Math_round 2.5 = 3%float.
Proof. vm_compute. reflexivity. Qed.

Example Math_round_negative_tie : Math_round (-2.5) = (-2)%float.
Proof. vm_compute. reflexivity. Qed.

Example Math_round_two_thirds : Math_round (2 / 3 * 100) = 67%float.
Proof. vm_compute. reflexivity. Qed.

Example Math_round_nan : PrimFloat.is_nan (Math_round nan) = true.
Proof. vm_compute. reflexivity. Qed.

Example Math_min_caps : Math_min 90 100 = 90%float /\ Math_min 90 60 = 60%float.
Proof. split; vm_compute; reflexivity. Qed.

Example of_Z_sample : of_Z 67 = 67%float /\ of_Z (-3) = (-3)%float.
Proof. split; vm_compute; reflexivity. Qed.

Example zero_is_falsy :
  truthy (Some 0%float) = false /\ truthy (Some nan) = false
  /\ truthy None = false /\ truthy (Some 25%float) = true.
Proof. repeat split; vm_compute; reflexivity. Qed.

Example toFixed_samples :
  toFixed 30.952380952380949 2 = "30.95"
  /\ toFixed 100 2 = "100.00"
  /\ toFixed 1.005 2 = "1.00"
  /\ toFixed 0.005 2 = "0.01"
  /\ toFixed (-0.001) 2 = "-0.00".
Proof. repeat split; vm_compute; reflexivity. Qed.

Example includes_sample :
  includes "RSI oversold at 12.00" "RSI oversold" = true
  /\ includes "MACD bullish crossover" "lower Bollinger" = false.
Proof. split; reflexivity. Qed.

Example slice_last_sample :
  slice_last 2 [1; 2; 3]%Z = [2; 3]%Z /\ slice_last 5 [1; 2; 3]%Z = [1; 2; 3]%Z.
Proof. split; reflexivity. Qed.

(** ** The service on sample series *)

Example rising_series_signal :
  let r := getTradeSignal toFixed 0 (ascending 60) None in
  signal r = SELL
  /\ confidence r = 67%float
  /\ reason r = "Strong sell signal: RSI overbought at 100.00"
  /\ rsi (indicators r) = 100%float
  /\ sma20 (indicators r) = 50.5%float
  /\ ema12 (indicators r) = 54.5%float.
Proof. cbv zeta. repeat split; vm_compute; reflexivity. Qed.

Example constant_series_risk :
  let confident :=
    {| signal := BUY; confidence := 80%float; reason := "";
       indicators := indicators (insufficientDataSignal 0);
       timestamp := 0 |} in
  getRiskAssessment (fun x _ => (x * x)%float) (constantSeries 50 100%float)
    confident
  = {| riskLevel := LOW;
       volatility := 0%float;
       recommendation :=
         "Market showing low volatility. Good for conservative strategies."
    |}.
Proof. vm_compute. reflexivity. Qed.

(** ** The three ways out of [getTradeSignal] *)

Section TradeSignalPaths.

Context {lib : TechnicalIndicators}.
Variable toFixed : float -> nat -> string.
Variables (now : Z) (prices : list float) (volumes : option (list float)).

Lemma getTradeSignal_short :
  (List.length prices < 50)%nat ->
  tradeSignalBody toFixed now prices volumes
  = Returned (insufficientDataSignal now).
Proof.
  intros Hlen. unfold tradeSignalBody.
  apply Nat.ltb_lt in Hlen. rewrite Hlen. reflexivity.
Qed.

Lemma getTradeSignal_long (l : Latest) :
  (50 <= List.length prices)%nat ->
  computeLatest prices = Returned l ->
  getTradeSignal toFixed now prices volumes
  = buildSignal now l (accumulateVotes toFixed l volumes).
Proof.
  intros Hlen Hl. unfold getTradeSignal, tradeSignalBody.
  apply Nat.ltb_ge in Hlen. rewrite Hlen, Hl. reflexivity.
Qed.

Lemma getTradeSignal_thrown (e : string) :
  (50 <= List.length prices)%nat ->
  computeLatest prices = Thrown e ->
  getTradeSignal toFixed now prices volumes = errorSignal now.
Proof.
  intros Hlen Hl. unfold getTradeSignal, tradeSignalBody.
  apply Nat.ltb_ge in Hlen. rewrite Hlen, Hl. reflexivity.
Qed.

(** Every call leaves by one of the three. *)
Lemma getTradeSignal_cases :
  getTradeSignal toFixed now prices volumes = insufficientDataSignal now
  \/ getTradeSignal toFixed now prices volumes = errorSignal now
  \/ exists l,
       computeLatest prices = Returned l
       /\ getTradeSignal toFixed now prices volumes
          = buildSignal now l (accumulateVotes toFixed l volumes).
Proof.
  destruct (Nat.lt_ge_cases (List.length prices) 50) as [Hlt | Hge].
  - left. unfold getTradeSignal.
    rewrite getTradeSignal_short by assumption. reflexivity.
  - destruct (computeLatest prices) as [l | e] eqn:Hl.
    + right; right. exists l. split; [reflexivity |].
      now apply getTradeSignal_long.
    + right; left. now apply (getTradeSignal_thrown e).
Qed.

End TradeSignalPaths.

(** ** What one rule can add to the counters *)

Ltac split_rule :=
  repeat match goal with
    | |- context [match ?x with _ => _ end] => destruct x
    end;
  unfold grows, voteBuy, voteSell; simpl; lia.

Lemma rsiAnalysis_grows toFixed l v : grows 2 v (rsiAnalysis toFixed l v).
Proof. unfold rsiAnalysis. split_rule. Qed.

Lemma macdAnalysis_grows l v : grows 1 v (macdAnalysis l v).
Proof. unfold macdAnalysis. split_rule. Qed.

Lemma bollingerAnalysis_grows l v : grows 1 v (bollingerAnalysis l v).
Proof. unfold bollingerAnalysis. split_rule. Qed.

Lemma movingAverageAnalysis_grows l v :
  grows 1 v (movingAverageAnalysis l v).
Proof. unfold movingAverageAnalysis. split_rule. Qed.

Lemma volumeAnalysis_grows volumes v : grows 1 v (volumeAnalysis volumes v).
Proof.
  unfold volumeAnalysis.
  destruct volumes as [vols |]; [| unfold grows; lia].
  destruct (20 <=? List.length vols)%nat; [| unfold grows; lia].
  cbv zeta.
  destruct (gt _ _); [| unfold grows; lia].
  destruct (buySignals v >? sellSignals v)%Z;
    [unfold grows, voteBuy; simpl; lia |].
  destruct (sellSignals v >? buySignals v)%Z;
    unfold grows, voteSell; simpl; lia.
Qed.

Lemma grows_trans a b u v w :
  grows a u v -> grows b v w -> grows (a + b) u w.
Proof. unfold grows. lia. Qed.

(** The counters are never negative and together never exceed 6. *)
Lemma accumulateVotes_bounds toFixed l volumes :
  let v := accumulateVotes toFixed l volumes in
  (0 <= buySignals v)%Z /\ (0 <= sellSignals v)%Z
  /\ (buySignals v + sellSignals v <= 6)%Z.
Proof.
  intros v.
  assert (H : grows 6 initialVotes v).
  { subst v. unfold accumulateVotes, votesBeforeVolume.
    change 6%Z with (2 + 1 + 1 + 1 + 1)%Z.
    eapply grows_trans; [| apply volumeAnalysis_grows].
    eapply grows_trans; [| apply movingAverageAnalysis_grows].
    eapply grows_trans; [| apply bollingerAnalysis_grows].
    eapply grows_trans; [| apply macdAnalysis_grows].
    apply rsiAnalysis_grows. }
  unfold grows in H. simpl in H. lia.
Qed.

(** ** The confidence is a whole number *)

(** Case analysis on an integer known to lie between 2 and 6. *)
Lemma between_2_and_6 (x : Z) :
  (2 <= x <= 6)%Z -> x = 2%Z \/ x = 3%Z \/ x = 4%Z \/ x = 5%Z \/ x = 6%Z.
Proof. lia. Qed.

Lemma confidence_is_confidenceInt (won total : Z) :
  (2 <= won)%Z -> (won <= total)%Z -> (total <= 6)%Z ->
  Math_round (Math_min 90 (of_Z won / of_Z (Z.max total 1) * 100))
  = of_Z (confidenceInt won total).
Proof.
  intros H2 Hle H6.
  destruct (between_2_and_6 won) as [-> | [-> | [-> | [-> | ->]]]];
    [lia | | | | |];
    (destruct (between_2_and_6 total) as [-> | [-> | [-> | [-> | ->]]]];
     [lia | | | | |]);
    solve [vm_compute; reflexivity | exfalso; lia].
Qed.

Lemma confidenceInt_range (won total : Z) :
  (0 < won)%Z -> (won <= total)%Z -> (0 <= confidenceInt won total <= 90)%Z.
Proof.
  intros Hw Ht. unfold confidenceInt. split; [| apply Z.le_min_l].
  apply Z.min_glb; [lia |].
  apply Z.div_pos; lia.
Qed.

(** ** The final decision *)

Lemma buildSignal_buy now l v :
  (buySignals v > sellSignals v)%Z -> (buySignals v >= 2)%Z ->
  signal (buildSignal now l v) = BUY
  /\ confidence (buildSignal now l v)
     = Math_round
         (Math_min 90
            (of_Z (buySignals v)
             / of_Z (Z.max (buySignals v + sellSignals v) 1) * 100)).
Proof.
  intros Hgt Hge. unfold buildSignal, finalSignal.
  apply Z.gtb_gt in Hgt. apply Z.geb_ge in Hge.
  rewrite Hgt, Hge. simpl. split; reflexivity.
Qed.

Lemma buildSignal_sell now l v :
  (sellSignals v > buySignals v)%Z -> (sellSignals v >= 2)%Z ->
  signal (buildSignal now l v) = SELL
  /\ confidence (buildSignal now l v)
     = Math_round
         (Math_min 90
            (of_Z (sellSignals v)
             / of_Z (Z.max (buySignals v + sellSignals v) 1) * 100)).
Proof.
  intros Hgt Hge. unfold buildSignal, finalSignal.
  assert (Hno : (buySignals v >? sellSignals v)%Z = false).
  { rewrite Z.gtb_ltb. apply Z.ltb_ge. lia. }
  apply Z.gtb_gt in Hgt. apply Z.geb_ge in Hge.
  rewrite Hno, Hgt, Hge. simpl. split; reflexivity.
Qed.

Lemma buildSignal_hold now l v :
  ~ ((buySignals v > sellSignals v)%Z /\ (buySignals v >= 2)%Z) ->
  ~ ((sellSignals v > buySignals v)%Z /\ (sellSignals v >= 2)%Z) ->
  signal (buildSignal now l v) = HOLD
  /\ confidence (buildSignal now l v) = 50%float.
Proof.
  intros Hb Hs. unfold buildSignal, finalSignal.
  destruct ((buySignals v >? sellSignals v)%Z && (buySignals v >=? 2)%Z)
    eqn:Eb.
  { exfalso. apply Hb. apply andb_true_iff in Eb as [E1 E2].
    apply Z.gtb_gt in E1. apply Z.geb_ge in E2. lia. }
  destruct ((sellSignals v >? buySignals v)%Z && (sellSignals v >=? 2)%Z)
    eqn:Es.
  { exfalso. apply Hs. apply andb_true_iff in Es as [E1 E2].
    apply Z.gtb_gt in E1. apply Z.geb_ge in E2. lia. }
  split; vm_compute; reflexivity.
Qed.

(** C1: for a series of at least 50 prices whose indicators were computed,
    the decision follows the counters [b] (buy) and [s] (sell) reached by
    the votes: BUY with confidence [round (min 90 (b / (b + s) * 100))] when
    [b > s] and [b >= 2]; SELL with the symmetric confidence when [s > b]
    and [s >= 2]; HOLD with confidence 50 in every other case. *)
Theorem getTradeSignal_decision
  (lib : TechnicalIndicators) (toFixed : float -> nat -> string) (now : Z)
  (prices : list float) (volumes : option (list float)) (l : Latest) :
  (50 <= List.length prices)%nat ->
  computeLatest prices = Returned l ->
  let b := buySignals (accumulateVotes toFixed l volumes) in
  let s := sellSignals (accumulateVotes toFixed l volumes) in
  let r := getTradeSignal toFixed now prices volumes in
  ((b > s)%Z /\ (b >= 2)%Z ->
   signal r = BUY
   /\ confidence r
      = Math_round (Math_min 90 (of_Z b / of_Z (b + s) * 100)))
  /\ ((s > b)%Z /\ (s >= 2)%Z ->
      signal r = SELL
      /\ confidence r
         = Math_round (Math_min 90 (of_Z s / of_Z (b + s) * 100)))
  /\ (~ ((b > s)%Z /\ (b >= 2)%Z) -> ~ ((s > b)%Z /\ (s >= 2)%Z) ->
      signal r = HOLD /\ confidence r = 50%float).
Proof.
  intros Hlen Hl b s r.
  assert (Hr : r = buildSignal now l (accumulateVotes toFixed l volumes))
    by (subst r; now apply getTradeSignal_long).
  destruct (accumulateVotes_bounds toFixed l volumes) as (Hb0 & Hs0 & _).
  fold b in Hb0. fold s in Hs0.
  rewrite Hr. repeat split.
  - apply buildSignal_buy; fold b; fold s; lia.
  - destruct H as [Hgt Hge].
    destruct (buildSignal_buy now l (accumulateVotes toFixed l volumes))
      as [_ Hc]; [exact Hgt | exact Hge |].
    rewrite Hc. fold b. fold s.
    replace (Z.max (b + s) 1) with (b + s)%Z by lia. reflexivity.
  - apply buildSignal_sell; fold b; fold s; lia.
  - destruct H as [Hgt Hge].
    destruct (buildSignal_sell now l (accumulateVotes toFixed l volumes))
      as [_ Hc]; [exact Hgt | exact Hge |].
    rewrite Hc. fold b. fold s.
    replace (Z.max (b + s) 1) with (b + s)%Z by lia. reflexivity.
  - now apply buildSignal_hold.
  - now apply buildSignal_hold.
Qed.

Ltac decide_Z :=
  vm_compute; first [reflexivity | discriminate | intro; discriminate].

Lemma getTradeSignal_decision_witness :
  signal (getTradeSignal toFixed 0 (ascending 60) None) = SELL
  /\ confidence (getTradeSignal toFixed 0 (ascending 60) None) = 67%float.
Proof.
  destruct
    (getTradeSignal_decision specIndicators toFixed 0 (ascending 60) None
       (specLatest (ascending 60)))
    as (_ & Hsell & _).
  - vm_compute. lia.
  - vm_compute. reflexivity.
  - destruct Hsell as [Hs Hc]; [split; decide_Z |].
    split; [exact Hs | rewrite Hc; vm_compute; reflexivity].
Defined.

(** ** Fewer than 50 prices *)

(** C3: for a series of fewer than 50 prices the [try] block returns (it
    does not throw, and the [catch] block is not entered) the signal HOLD
    with confidence 0, the reason that says the data is insufficient, and a
    snapshot whose [rsi], [sma20] and [ema12] are 0 and whose [macd] and
    [bollingerBands] are [null]. *)
Theorem getTradeSignal_insufficient_data
  (lib : TechnicalIndicators) (toFixed : float -> nat -> string) (now : Z)
  (prices : list float) (volumes : option (list float)) :
  (List.length prices < 50)%nat ->
  let r := getTradeSignal toFixed now prices volumes in
  tradeSignalBody toFixed now prices volumes = Returned r
  /\ signal r = HOLD
  /\ confidence r = 0%float
  /\ reason r
     = "Insufficient data for analysis (minimum 50 data points required)"
  /\ indicators r
     = {| rsi := 0%float; macd := None; bollingerBands := None;
          sma20 := 0%float; ema12 := 0%float |}.
Proof.
  intros Hlen r. subst r. unfold getTradeSignal.
  rewrite getTradeSignal_short by exact Hlen.
  simpl. repeat split; reflexivity.
Qed.

Lemma getTradeSignal_insufficient_data_witness :
  signal (getTradeSignal toFixed 0 (descending 49) (Some [1%float])) = HOLD
  /\ confidence (getTradeSignal toFixed 0 (descending 49) (Some [1%float]))
     = 0%float.
Proof.
  destruct
    (getTradeSignal_insufficient_data specIndicators toFixed 0
       (descending 49) (Some [1%float]))
    as (_ & Hs & Hc & _).
  - vm_compute. lia.
  - split; [exact Hs | exact Hc].
Defined.

(** ** Ranges *)

Lemma buildSignal_confidence_whole now l v :
  (0 <= buySignals v)%Z -> (0 <= sellSignals v)%Z ->
  (buySignals v + sellSignals v <= 6)%Z ->
  exists k : Z,
    (0 <= k <= 100)%Z /\ confidence (buildSignal now l v) = of_Z k.
Proof.
  intros Hb Hs H6.
  assert (Hcases :
    ((buySignals v > sellSignals v)%Z /\ (buySignals v >= 2)%Z)
    \/ ((sellSignals v > buySignals v)%Z /\ (sellSignals v >= 2)%Z)
    \/ (~ ((buySignals v > sellSignals v)%Z /\ (buySignals v >= 2)%Z)
        /\ ~ ((sellSignals v > buySignals v)%Z /\ (sellSignals v >= 2)%Z)))
    by lia.
  destruct Hcases as [[Hgt Hge] | [[Hgt Hge] | [Hnb Hns]]].
  - exists (confidenceInt (buySignals v) (buySignals v + sellSignals v)).
    split.
    + pose proof
        (confidenceInt_range (buySignals v) (buySignals v + sellSignals v)).
      lia.
    + destruct (buildSignal_buy now l v Hgt Hge) as [_ ->].
      apply confidence_is_confidenceInt; lia.
  - exists (confidenceInt (sellSignals v) (buySignals v + sellSignals v)).
    split.
    + pose proof
        (confidenceInt_range (sellSignals v) (buySignals v + sellSignals v)).
      lia.
    + destruct (buildSignal_sell now l v Hgt Hge) as [_ ->].
      apply confidence_is_confidenceInt; lia.
  - exists 50%Z. split; [lia |].
    destruct (buildSignal_hold now l v Hnb Hns) as [_ ->].
    vm_compute. reflexivity.
Qed.

(** C2: whatever the indicator package, the clock, the prices, the volumes
    and the signal, the confidence returned by [getTradeSignal] is a whole
    number between 0 and 100, and the risk level returned by
    [getRiskAssessment] is LOW, MEDIUM or HIGH. *)
Theorem confidence_and_riskLevel_ranges
  (lib : TechnicalIndicators) (toFixed : float -> nat -> string)
  (Math_pow : float -> float -> float) (now : Z) (prices : list float)
  (volumes : option (list float)) (sig : TradingSignal) :
  (exists k : Z,
     (0 <= k <= 100)%Z
     /\ confidence (getTradeSignal toFixed now prices volumes) = of_Z k)
  /\ (riskLevel (getRiskAssessment Math_pow prices sig) = LOW
      \/ riskLevel (getRiskAssessment Math_pow prices sig) = MEDIUM
      \/ riskLevel (getRiskAssessment Math_pow prices sig) = HIGH).
Proof.
  split.
  - destruct (getTradeSignal_cases toFixed now prices volumes)
      as [-> | [-> | (l & _ & ->)]].
    + exists 0%Z. split; [lia | vm_compute; reflexivity].
    + exists 0%Z. split; [lia | vm_compute; reflexivity].
    + destruct (accumulateVotes_bounds toFixed l volumes) as (Hb & Hs & H6).
      now apply buildSignal_confidence_whole.
  - destruct (riskLevel (getRiskAssessment Math_pow prices sig)); auto.
Qed.

(** ** The risk assessment *)

Lemma getRiskAssessment_unfold Math_pow prices sig :
  getRiskAssessment Math_pow prices sig
  = let vol := computeVolatility Math_pow prices in
    let adjusted := adjustForConfidence sig (classifyVolatility vol) in
    {| riskLevel := fst adjusted;
       volatility := (Math_round (vol * 100) / 100)%float;
       recommendation := snd adjusted |}.
Proof.
  unfold getRiskAssessment, riskBody. cbv zeta.
  destruct (adjustForConfidence sig _) as [level text]. reflexivity.
Qed.

(** The [catch] block of [getRiskAssessment] is never entered. *)
Lemma riskBody_returns Math_pow prices sig :
  riskBody Math_pow prices sig
  = Returned (getRiskAssessment Math_pow prices sig).
Proof.
  unfold getRiskAssessment, riskBody. cbv zeta.
  destruct (adjustForConfidence sig _) as [level text]. reflexivity.
Qed.

(** Only the confidence of the signal is read. *)
Lemma getRiskAssessment_confidence_only Math_pow prices sig1 sig2 :
  confidence sig1 = confidence sig2 ->
  getRiskAssessment Math_pow prices sig1
  = getRiskAssessment Math_pow prices sig2.
Proof.
  intros Hc. rewrite !getRiskAssessment_unfold. cbv zeta.
  unfold adjustForConfidence. rewrite Hc. reflexivity.
Qed.

(** With a confidence of 60 or more (or [NaN]) the tier is the one of the
    volatility. *)
Lemma getRiskAssessment_confident Math_pow prices sig :
  PrimFloat.ltb (confidence sig) 60 = false ->
  riskLevel (getRiskAssessment Math_pow prices sig)
  = fst (classifyVolatility (computeVolatility Math_pow prices))
  /\ recommendation (getRiskAssessment Math_pow prices sig)
     = snd (classifyVolatility (computeVolatility Math_pow prices)).
Proof.
  intros Hc. rewrite getRiskAssessment_unfold. cbv zeta.
  unfold adjustForConfidence.
  destruct (classifyVolatility _) as [level text].
  rewrite Hc. split; reflexivity.
Qed.

(** C4: when the confidence of the signal is below 60, the risk level is
    the tier of the volatility moved up by one (LOW to MEDIUM, MEDIUM and
    HIGH to HIGH), which is strictly higher when that tier was LOW or
    MEDIUM, and the recommendation is the text of the volatility tier
    followed by the caution clause. *)
Theorem getRiskAssessment_escalates
  (Math_pow : float -> float -> float) (prices : list float)
  (sig : TradingSignal) :
  PrimFloat.ltb (confidence sig) 60 = true ->
  let base := classifyVolatility (computeVolatility Math_pow prices) in
  let r := getRiskAssessment Math_pow prices sig in
  riskLevel r = escalate (fst base)
  /\ (fst base = LOW \/ fst base = MEDIUM ->
      (tierRank (fst base) < tierRank (riskLevel r))%Z)
  /\ recommendation r = (snd base ++ cautionClause)%string.
Proof.
  intros Hc base r. subst base r.
  rewrite getRiskAssessment_unfold. cbv zeta.
  unfold adjustForConfidence.
  destruct (classifyVolatility _) as [level text].
  rewrite Hc. simpl.
  destruct level; simpl; repeat split; try reflexivity;
    intros [H | H]; try discriminate H; lia.
Qed.

Lemma getRiskAssessment_escalates_witness :
  riskLevel
    (getRiskAssessment (fun x _ => (x * x)%float)
       (constantSeries 50 100%float) (insufficientDataSignal 0))
  = MEDIUM
  /\ recommendation
       (getRiskAssessment (fun x _ => (x * x)%float)
          (constantSeries 50 100%float) (insufficientDataSignal 0))
     = ("Market showing low volatility. Good for conservative strategies."
        ++ " Low signal confidence suggests increased caution.")%string.
Proof.
  destruct
    (getRiskAssessment_escalates (fun x _ => (x * x)%float)
       (constantSeries 50 100%float) (insufficientDataSignal 0))
    as (Hlevel & _ & Htext).
  - vm_compute. reflexivity.
  - split; [rewrite Hlevel | rewrite Htext]; vm_compute; reflexivity.
Defined.

(** C5: on the empty series and on a series of one price there is no
    return, the mean of no returns is [0 / 0], and nothing throws: the
    function leaves by its normal [return] with the level HIGH, a
    volatility that is [NaN], and the high-volatility warning (with the
    caution clause when the confidence is below 60). The fallback of the
    [catch] block, with volatility 0 and the text that the risk cannot be
    assessed, is not what is returned. *)
Theorem getRiskAssessment_degenerate
  (Math_pow : float -> float -> float) (sig : TradingSignal) (p : float) :
  let warning :=
    ("High volatility warning! "
     ++ "Consider reducing position size or waiting for stability.")%string in
  let degenerate (r : RiskAssessment) :=
    riskLevel r = HIGH
    /\ PrimFloat.is_nan (volatility r) = true
    /\ recommendation r = snd (adjustForConfidence sig (HIGH, warning))
    /\ recommendation r <> recommendation riskFallback
    /\ r <> riskFallback in
  degenerate (getRiskAssessment Math_pow [] sig)
  /\ degenerate (getRiskAssessment Math_pow [p] sig).
Proof.
  cbv zeta.
  assert (Hnan : forall r, PrimFloat.is_nan (volatility r) = true ->
                           r <> riskFallback).
  { intros r Hr Heq. rewrite Heq in Hr. vm_compute in Hr. discriminate Hr. }
  split; rewrite getRiskAssessment_unfold; cbv zeta;
    unfold adjustForConfidence;
    (destruct (PrimFloat.ltb (confidence sig) 60) eqn:Hc;
     vm_compute; rewrite ?Hc;
     repeat split; try reflexivity; try discriminate;
     apply Hnan; vm_compute; reflexivity).
Qed.

(** ** Determinism and the clock *)

Lemma buildSignal_clock now1 now2 l v :
  signal (buildSignal now1 l v) = signal (buildSignal now2 l v)
  /\ confidence (buildSignal now1 l v) = confidence (buildSignal now2 l v)
  /\ reason (buildSignal now1 l v) = reason (buildSignal now2 l v)
  /\ indicators (buildSignal now1 l v) = indicators (buildSignal now2 l v).
Proof.
  unfold buildSignal. destruct (finalSignal v) as [[sig conf] text].
  repeat split; reflexivity.
Qed.

Lemma getTradeSignal_timestamp
  (lib : TechnicalIndicators) (toFixed : float -> nat -> string) (now : Z)
  (prices : list float) (volumes : option (list float)) :
  timestamp (getTradeSignal toFixed now prices volumes) = now.
Proof.
  destruct (getTradeSignal_cases toFixed now prices volumes)
    as [-> | [-> | (l & _ & ->)]]; try reflexivity.
  unfold buildSignal. destruct (finalSignal _) as [[sig conf] text].
  reflexivity.
Qed.

(** C6, as stated, fails: two calls on the same 60 prices made at
    different times return signals that differ (in their timestamp). *)
Lemma getTradeSignal_depends_on_clock :
  getTradeSignal toFixed 1000 (descending 60) None
  <> getTradeSignal toFixed 2000 (descending 60) None.
Proof.
  intros H. apply (f_equal timestamp) in H.
  rewrite !getTradeSignal_timestamp in H. discriminate H.
Qed.

(** C6, amended: two calls of [getTradeSignal] on identical prices and
    volumes agree on the signal, the confidence, the reason and the
    indicator snapshot; the timestamp is the reading of the clock at each
    call. [getRiskAssessment] has no other input than its arguments, and
    returns identical assessments, in every field, for the two signals. *)
Theorem getTradeSignal_deterministic_up_to_clock
  (lib : TechnicalIndicators) (toFixed : float -> nat -> string)
  (Math_pow : float -> float -> float) (now1 now2 : Z)
  (prices : list float) (volumes : option (list float)) :
  let r1 := getTradeSignal toFixed now1 prices volumes in
  let r2 := getTradeSignal toFixed now2 prices volumes in
  signal r1 = signal r2
  /\ confidence r1 = confidence r2
  /\ reason r1 = reason r2
  /\ indicators r1 = indicators r2
  /\ timestamp r1 = now1
  /\ timestamp r2 = now2
  /\ getRiskAssessment Math_pow prices r1
     = getRiskAssessment Math_pow prices r2.
Proof.
  intros r1 r2.
  assert (H : signal r1 = signal r2 /\ confidence r1 = confidence r2
              /\ reason r1 = reason r2 /\ indicators r1 = indicators r2).
  { subst r1 r2. unfold getTradeSignal, tradeSignalBody.
    destruct (List.length prices <? 50)%nat;
      [simpl; repeat split; reflexivity |].
    destruct (computeLatest prices) as [l | e];
      [| simpl; repeat split; reflexivity].
    simpl. apply buildSignal_clock. }
  destruct H as (Hs & Hc & Hr & Hi).
  repeat split; try assumption.
  - apply getTradeSignal_timestamp.
  - apply getTradeSignal_timestamp.
  - now apply getRiskAssessment_confidence_only.
Qed.

(** ** The RSI rule *)

(** For an RSI that is neither 0 nor [NaN] the rule is the one of the
    thresholds 30 and 70. *)
Lemma rsiAnalysis_truthy toFixed l v x :
  latestRSI l = Some x -> truthy_number x = true ->
  (PrimFloat.ltb x 30 = true ->
   buySignals (rsiAnalysis toFixed l v) = (buySignals v + 2)%Z
   /\ sellSignals (rsiAnalysis toFixed l v) = sellSignals v)
  /\ (PrimFloat.ltb 70 x = true ->
      PrimFloat.ltb x 30 = false ->
      buySignals (rsiAnalysis toFixed l v) = buySignals v
      /\ sellSignals (rsiAnalysis toFixed l v) = (sellSignals v + 2)%Z)
  /\ (PrimFloat.ltb x 30 = false -> PrimFloat.ltb 70 x = false ->
      rsiAnalysis toFixed l v = v).
Proof.
  intros Hx Ht. unfold rsiAnalysis, lt, gt. rewrite Hx. simpl. rewrite Ht.
  simpl. repeat split; intros; 
    repeat match goal with H : PrimFloat.ltb _ _ = _ |- _ => rewrite H end;
    reflexivity.
Qed.

(** An RSI in [[30, 70]] contributes nothing. *)
Lemma rsiAnalysis_neutral toFixed l v x :
  latestRSI l = Some x ->
  PrimFloat.ltb x 30 = false -> PrimFloat.ltb 70 x = false ->
  rsiAnalysis toFixed l v = v.
Proof.
  intros Hx H30 H70. unfold rsiAnalysis, lt, gt. rewrite Hx. simpl.
  rewrite H30, H70, !andb_false_r. reflexivity.
Qed.

(** C7: an RSI of exactly 0 is strictly below 30, and yet the rule adds
    nothing: the test [latestRSI && latestRSI < 30] is false, because 0 is
    falsy. *)
Theorem rsiAnalysis_ignores_zero
  (toFixed : float -> nat -> string) (m : option TI.MACDOutput)
  (bb : option TI.BollingerBandsOutput) (sma ema price : option float)
  (v : Votes) :
  let l :=
    {| latestRSI := Some 0%float; latestMACD := m; latestBB := bb;
       latestSMA20 := sma; latestEMA12 := ema; currentPrice := price |} in
  lt (latestRSI l) (Some 30%float) = true
  /\ rsiAnalysis toFixed l v = v
  /\ buySignals (rsiAnalysis toFixed l v) <> (buySignals v + 2)%Z.
Proof.
  cbv zeta. unfold rsiAnalysis. simpl.
  repeat split; try (vm_compute; reflexivity).
  change (truthy (Some 0%float)) with false. simpl. lia.
Qed.

(** The RSI of 60 prices falling by one at each step is exactly 0. *)
Lemma descending_rsi_is_zero :
  computeLatest (descending 60) = Returned (specLatest (descending 60))
  /\ latestRSI (specLatest (descending 60)) = Some 0%float.
Proof. split; vm_compute; reflexivity. Qed.

(** ** The scenario of 60 falling prices *)

(** On 60 rising prices the RSI is 100 and counts twice for the sell side,
    and the signal is SELL. *)
Lemma ascending_series_sells (now : Z) :
  let v := accumulateVotes toFixed (specLatest (ascending 60)) None in
  buySignals v = 1%Z /\ sellSignals v = 2%Z
  /\ signal (getTradeSignal toFixed now (ascending 60) None) = SELL.
Proof. cbv zeta. repeat split; vm_compute; reflexivity. Qed.

(** C8: on the prices 60, 59, ..., 1 the RSI is 0 and is not counted, the
    only vote before the volume check is the bearish moving-average vote,
    and so, whatever the volumes, the buy counter is 0, the sell counter is
    at least 1, and the signal is not BUY; without volumes it is HOLD. *)
Theorem descending_series_is_not_a_buy
  (toFixed : float -> nat -> string) (now : Z)
  (volumes : option (list float)) :
  let l := specLatest (descending 60) in
  let v := accumulateVotes toFixed l volumes in
  computeLatest (descending 60) = Returned l
  /\ latestRSI l = Some 0%float
  /\ votesBeforeVolume toFixed l
     = {| buySignals := 0; sellSignals := 1;
          reasons := ["Price below SMA20 with EMA12 bearish"] |}
  /\ buySignals v = 0%Z
  /\ (1 <= sellSignals v)%Z
  /\ signal (getTradeSignal toFixed now (descending 60) volumes) <> BUY
  /\ signal (getTradeSignal toFixed now (descending 60) None) = HOLD.
Proof.
  intros l v.
  assert (Hl : computeLatest (descending 60) = Returned l)
    by (vm_compute; reflexivity).
  assert (Hvb : votesBeforeVolume toFixed l
                = {| buySignals := 0; sellSignals := 1;
                     reasons := ["Price below SMA20 with EMA12 bearish"] |})
    by (vm_compute; reflexivity).
  assert (Hlen : (50 <= List.length (descending 60))%nat)
    by (vm_compute; lia).
  assert (Hb : buySignals v = 0%Z).
  { subst v. unfold accumulateVotes. rewrite Hvb.
    unfold volumeAnalysis.
    destruct volumes as [vols |]; [| reflexivity].
    destruct (20 <=? List.length vols)%nat; [| reflexivity].
    cbv zeta. destruct (gt _ _); reflexivity. }
  assert (Hs : (1 <= sellSignals v)%Z).
  { pose proof (volumeAnalysis_grows volumes
                  (votesBeforeVolume toFixed l)) as (_ & Hg & _).
    subst v. unfold accumulateVotes. rewrite Hvb in Hg. exact Hg. }
  split; [exact Hl |].
  split; [vm_compute; reflexivity |].
  split; [exact Hvb |].
  split; [exact Hb |].
  split; [exact Hs |].
  split; [| vm_compute; reflexivity].
  rewrite (getTradeSignal_long toFixed now _ volumes l Hlen Hl).
  fold v. clearbody v. clearbody l.
  destruct (Z_lt_ge_dec (sellSignals v) 2) as [Hlt | Hge].
  - destruct (buildSignal_hold now l v) as [-> _]; [lia | lia | discriminate].
  - destruct (buildSignal_sell now l v) as [-> _]; [lia | lia | discriminate].
Qed.

(** ** The volume rule *)

(** The volume rule adds to a counter only if that counter strictly leads. *)
Lemma volumeAnalysis_reinforces volumes v :
  (buySignals (volumeAnalysis volumes v) <> buySignals v ->
   (buySignals v > sellSignals v)%Z)
  /\ (sellSignals (volumeAnalysis volumes v) <> sellSignals v ->
      (sellSignals v > buySignals v)%Z).
Proof.
  unfold volumeAnalysis.
  destruct volumes as [vols |]; [| split; intros H; now elim H].
  destruct (20 <=? List.length vols)%nat; [| split; intros H; now elim H].
  cbv zeta. destruct (gt _ _); [| split; intros H; now elim H].
  destruct (buySignals v >? sellSignals v)%Z eqn:Eb.
  - apply Z.gtb_gt in Eb. split; intros H; [exact Eb | now elim H].
  - destruct (sellSignals v >? buySignals v)%Z eqn:Es.
    + apply Z.gtb_gt in Es. split; intros H; [now elim H | exact Es].
    + split; intros H; now elim H.
Qed.

Lemma volumeAnalysis_tie volumes v :
  buySignals v = sellSignals v -> volumeAnalysis volumes v = v.
Proof.
  intros Htie. unfold volumeAnalysis.
  destruct volumes as [vols |]; [| reflexivity].
  destruct (20 <=? List.length vols)%nat; [| reflexivity].
  cbv zeta. destruct (gt _ _); [| reflexivity].
  rewrite Htie, Z.gtb_ltb, Z.ltb_irrefl. reflexivity.
Qed.

(** C9: when the two counters are equal just before the volume check and
    the volumes have at least 20 points with the last one above 1.5 times
    the mean of the last 20, the volume rule changes neither counter and
    the signal is HOLD; and in general the rule adds to a counter only when
    that counter is strictly ahead of the other. *)
Theorem volume_spike_does_not_break_a_tie
  (lib : TechnicalIndicators) (toFixed : float -> nat -> string) (now : Z)
  (prices vols : list float) (l : Latest) :
  (50 <= List.length prices)%nat ->
  computeLatest prices = Returned l ->
  buySignals (votesBeforeVolume toFixed l)
  = sellSignals (votesBeforeVolume toFixed l) ->
  (20 <= List.length vols)%nat ->
  gt (last_elem vols)
    (Some (reduce PrimFloat.add 0 (slice_last 20 vols) / 20 * 1.5)%float)
  = true ->
  let before := votesBeforeVolume toFixed l in
  let after := accumulateVotes toFixed l (Some vols) in
  buySignals after = buySignals before
  /\ sellSignals after = sellSignals before
  /\ buySignals after = sellSignals after
  /\ signal (getTradeSignal toFixed now prices (Some vols)) = HOLD
  /\ forall volumes v,
       (buySignals (volumeAnalysis volumes v) <> buySignals v ->
        (buySignals v > sellSignals v)%Z)
       /\ (sellSignals (volumeAnalysis volumes v) <> sellSignals v ->
           (sellSignals v > buySignals v)%Z).
Proof.
  intros Hlen Hl Htie Hvols Hspike before after.
  assert (Hafter : after = before)
    by (subst after before; unfold accumulateVotes;
        now apply volumeAnalysis_tie).
  rewrite Hafter. repeat split; try assumption.
  - rewrite (getTradeSignal_long toFixed now prices (Some vols) l Hlen Hl).
    fold after. rewrite Hafter.
    apply buildSignal_hold; subst before; lia.
  - apply volumeAnalysis_reinforces.
  - apply volumeAnalysis_reinforces.
Qed.

Lemma volume_spike_does_not_break_a_tie_witness :
  votesBeforeVolume toFixed (specLatest tiedSeries)
  = {| buySignals := 1; sellSignals := 1;
       reasons :=
         ["MACD bearish crossover"; "Price touching lower Bollinger Band"] |}
  /\ buySignals
       (accumulateVotes toFixed (specLatest tiedSeries) (Some spikeVolumes))
     = 1%Z
  /\ sellSignals
       (accumulateVotes toFixed (specLatest tiedSeries) (Some spikeVolumes))
     = 1%Z
  /\ signal (getTradeSignal toFixed 0 tiedSeries (Some spikeVolumes)) = HOLD.
Proof.
  split; [vm_compute; reflexivity |].
  destruct
    (volume_spike_does_not_break_a_tie specIndicators toFixed 0 tiedSeries
       spikeVolumes (specLatest tiedSeries))
    as (Hb & Hs & _ & Hh & _).
  - vm_compute. lia.
  - vm_compute. reflexivity.
  - vm_compute. reflexivity.
  - vm_compute. lia.
  - vm_compute. reflexivity.
  - rewrite Hb, Hs.
    split; [vm_compute; reflexivity |].
    split; [vm_compute; reflexivity | exact Hh].
Defined.

(** ** The Bollinger rule *)

Lemma bollingerAnalysis_one_vote l v :
  (buySignals (bollingerAnalysis l v) + sellSignals (bollingerAnalysis l v)
   <= buySignals v + sellSignals v + 1)%Z
  /\ (buySignals v <= buySignals (bollingerAnalysis l v))%Z
  /\ (sellSignals v <= sellSignals (bollingerAnalysis l v))%Z.
Proof.
  pose proof (bollingerAnalysis_grows l v) as H. unfold grows in H. lia.
Qed.

Lemma bollingerAnalysis_lower_first l v bb :
  latestBB l = Some bb ->
  le (currentPrice l) (Some (TI.lower bb)) = true ->
  bollingerAnalysis l v = voteBuy 1 "Price touching lower Bollinger Band" v.
Proof.
  intros Hbb Hle. unfold bollingerAnalysis. rewrite Hbb, Hle. reflexivity.
Qed.

(** C10: when the last price is at or below the lower band and also at or
    above the upper band, the Bollinger rule adds one vote to the buy
    counter and leaves the sell counter as it was; and in no case does the
    rule add more than one vote. *)
Theorem bollinger_buy_takes_precedence
  (lib : TechnicalIndicators) (toFixed : float -> nat -> string)
  (prices : list float) (l : Latest) (bb : TI.BollingerBandsOutput) :
  (50 <= List.length prices)%nat ->
  computeLatest prices = Returned l ->
  latestBB l = Some bb ->
  le (currentPrice l) (Some (TI.lower bb)) = true ->
  ge (currentPrice l) (Some (TI.upper bb)) = true ->
  let before := macdAnalysis l (rsiAnalysis toFixed l initialVotes) in
  let after := bollingerAnalysis l before in
  buySignals after = (buySignals before + 1)%Z
  /\ sellSignals after = sellSignals before
  /\ forall l' v,
       (buySignals (bollingerAnalysis l' v)
        + sellSignals (bollingerAnalysis l' v)
        <= buySignals v + sellSignals v + 1)%Z
       /\ (buySignals v <= buySignals (bollingerAnalysis l' v))%Z
       /\ (sellSignals v <= sellSignals (bollingerAnalysis l' v))%Z.
Proof.
  intros _ _ Hbb Hlow _ before after. subst after.
  rewrite (bollingerAnalysis_lower_first l before bb Hbb Hlow).
  split; [reflexivity |]. split; [reflexivity |].
  intros l' v. apply bollingerAnalysis_one_vote.
Qed.

Lemma bollinger_buy_takes_precedence_witness :
  latestBB (specLatest (constantSeries 50 100%float))
  = Some {| TI.upper := 100; TI.middle := 100; TI.lower := 100 |}
  /\ buySignals
       (bollingerAnalysis (specLatest (constantSeries 50 100%float))
          (macdAnalysis (specLatest (constantSeries 50 100%float))
             (rsiAnalysis toFixed (specLatest (constantSeries 50 100%float))
                initialVotes)))
     = 1%Z
  /\ sellSignals
       (bollingerAnalysis (specLatest (constantSeries 50 100%float))
          (macdAnalysis (specLatest (constantSeries 50 100%float))
             (rsiAnalysis toFixed (specLatest (constantSeries 50 100%float))
                initialVotes)))
     = 2%Z.
Proof.
  split; [vm_compute; reflexivity |].
  destruct
    (bollinger_buy_takes_precedence specIndicators toFixed
       (constantSeries 50 100%float)
       (specLatest (constantSeries 50 100%float))
       {| TI.upper := 100; TI.middle := 100; TI.lower := 100 |})
    as (Hb & Hs & _).
  - vm_compute. lia.
  - vm_compute. reflexivity.
  - vm_compute. reflexivity.
  - vm_compute. reflexivity.
  - vm_compute. reflexivity.
  - rewrite Hb, Hs. split; vm_compute; reflexivity.
Defined.

(** * Further properties of the service *)

(** ** Votes and reasons move together *)

Ltac one_vote_cases :=
  repeat match goal with
    | |- context [match ?x with _ => _ end] => destruct x
    end;
  unfold oneVote;
  first [ left; reflexivity
        | right; eexists; left; reflexivity
        | right; eexists; right; reflexivity ].

Lemma rsiAnalysis_oneVote toFixed l v : oneVote 2 v (rsiAnalysis toFixed l v).
Proof. unfold rsiAnalysis. one_vote_cases. Qed.

Lemma macdAnalysis_oneVote l v : oneVote 1 v (macdAnalysis l v).
Proof. unfold macdAnalysis. one_vote_cases. Qed.

Lemma bollingerAnalysis_oneVote l v : oneVote 1 v (bollingerAnalysis l v).
Proof. unfold bollingerAnalysis. one_vote_cases. Qed.

Lemma movingAverageAnalysis_oneVote l v :
  oneVote 1 v (movingAverageAnalysis l v).
Proof. unfold movingAverageAnalysis. one_vote_cases. Qed.

Lemma volumeAnalysis_oneVote volumes v :
  oneVote 1 v (volumeAnalysis volumes v).
Proof.
  unfold volumeAnalysis.
  destruct volumes as [vols |]; [| now left].
  destruct (20 <=? List.length vols)%nat; [| now left].
  cbv zeta. destruct (gt _ _); [| now left].
  destruct (buySignals v >? sellSignals v)%Z;
    [right; eexists; left; reflexivity |].
  destruct (sellSignals v >? buySignals v)%Z;
    [right; eexists; right; reflexivity | now left].
Qed.

(** What a vote of weight [w] does to the sum of the counters and to the
    number of reasons. *)
Lemma oneVote_counts w v v' :
  oneVote w v v' ->
  ((buySignals v' + sellSignals v')%Z = (buySignals v + sellSignals v)%Z
   /\ List.length (reasons v') = List.length (reasons v))
  \/ ((buySignals v' + sellSignals v')%Z
      = (buySignals v + sellSignals v + w)%Z
      /\ List.length (reasons v') = S (List.length (reasons v))).
Proof.
  intros [-> | [r [-> | ->]]].
  - left. split; reflexivity.
  - right. unfold voteBuy. simpl. rewrite length_app. simpl.
    split; [lia | apply Nat.add_1_r].
  - right. unfold voteSell. simpl. rewrite length_app. simpl.
    split; [lia | apply Nat.add_1_r].
Qed.

(** The rules never take a vote back: the counters are non-negative, each
    vote comes with exactly one reason, and only the RSI vote weighs 2. So
    the sum of the two counters is the number of reasons or one more; there
    are at most 4 reasons before the volume check and at most 5 after it. *)
Theorem votes_and_reasons_in_step
  (toFixed : float -> nat -> string) (l : Latest)
  (volumes : option (list float)) :
  let before := votesBeforeVolume toFixed l in
  let after := accumulateVotes toFixed l volumes in
  let count (v : Votes) := Z.of_nat (List.length (reasons v)) in
  (0 <= buySignals after)%Z /\ (0 <= sellSignals after)%Z
  /\ (count before <= buySignals before + sellSignals before
      <= count before + 1)%Z
  /\ (count after <= buySignals after + sellSignals after
      <= count after + 1)%Z
  /\ (count before <= 4)%Z /\ (count after <= 5)%Z
  /\ (count before <= count after <= count before + 1)%Z.
Proof.
  intros before after count.
  destruct (accumulateVotes_bounds toFixed l volumes) as (Hb & Hs & _).
  fold after in Hb, Hs.
  pose (v1 := rsiAnalysis toFixed l initialVotes).
  pose (v2 := macdAnalysis l v1).
  pose (v3 := bollingerAnalysis l v2).
  pose proof (oneVote_counts _ _ _ (rsiAnalysis_oneVote toFixed l initialVotes))
    as H1.
  pose proof (oneVote_counts _ _ _ (macdAnalysis_oneVote l v1)) as H2.
  pose proof (oneVote_counts _ _ _ (bollingerAnalysis_oneVote l v2)) as H3.
  pose proof (oneVote_counts _ _ _ (movingAverageAnalysis_oneVote l v3)) as H4.
  pose proof (oneVote_counts _ _ _ (volumeAnalysis_oneVote volumes before))
    as H5.
  fold v1 in H1. fold v2 in H2. fold v3 in H3.
  change (movingAverageAnalysis l v3) with before in H4.
  change (volumeAnalysis volumes before) with after in H5.
  subst count. cbv beta. simpl in H1.
  lia.
Qed.

(** ** Which confidences go with which signal *)

Lemma directional_confidence (won total : Z) :
  (2 <= won)%Z -> (won <= total)%Z -> (total <= 6)%Z ->
  (total < 2 * won)%Z ->
  let c := Math_round (Math_min 90 (of_Z won / of_Z (Z.max total 1) * 100)) in
  c = of_Z (confidenceInt won total)
  /\ (60 <= confidenceInt won total <= 90)%Z
  /\ PrimFloat.ltb c 60 = false
  /\ PrimFloat.leb 50 c = true.
Proof.
  intros H2 Hle H6 Hlead.
  destruct (between_2_and_6 won) as [-> | [-> | [-> | [-> | ->]]]];
    [lia | | | | |];
    (destruct (between_2_and_6 total) as [-> | [-> | [-> | [-> | ->]]]];
     [lia | | | | |]);
    solve [ exfalso; lia
          | cbv zeta; split; [vm_compute; reflexivity |];
            split; [split; apply Z.leb_le; vm_compute; reflexivity |];
            split; vm_compute; reflexivity ].
Qed.

(** The three outcomes of the final decision, with what each says about
    the counters. *)
Lemma buildSignal_decided now l v :
  (0 <= buySignals v)%Z -> (0 <= sellSignals v)%Z ->
  (signal (buildSignal now l v) = BUY
   /\ (buySignals v > sellSignals v)%Z /\ (buySignals v >= 2)%Z
   /\ confidence (buildSignal now l v)
      = Math_round
          (Math_min 90
             (of_Z (buySignals v)
              / of_Z (Z.max (buySignals v + sellSignals v) 1) * 100)))
  \/ (signal (buildSignal now l v) = SELL
      /\ (sellSignals v > buySignals v)%Z /\ (sellSignals v >= 2)%Z
      /\ confidence (buildSignal now l v)
         = Math_round
             (Math_min 90
                (of_Z (sellSignals v)
                 / of_Z (Z.max (buySignals v + sellSignals v) 1) * 100)))
  \/ (signal (buildSignal now l v) = HOLD
      /\ ~ ((buySignals v > sellSignals v)%Z /\ (buySignals v >= 2)%Z)
      /\ ~ ((sellSignals v > buySignals v)%Z /\ (sellSignals v >= 2)%Z)
      /\ confidence (buildSignal now l v) = 50%float).
Proof.
  intros Hb Hs.
  assert (Hcases :
    ((buySignals v > sellSignals v)%Z /\ (buySignals v >= 2)%Z)
    \/ ((sellSignals v > buySignals v)%Z /\ (sellSignals v >= 2)%Z)
    \/ (~ ((buySignals v > sellSignals v)%Z /\ (buySignals v >= 2)%Z)
        /\ ~ ((sellSignals v > buySignals v)%Z /\ (sellSignals v >= 2)%Z)))
    by lia.
  destruct Hcases as [[Hgt Hge] | [[Hgt Hge] | [Hnb Hns]]].
  - left. destruct (buildSignal_buy now l v Hgt Hge) as [Hsig Hc]. auto.
  - right; left.
    destruct (buildSignal_sell now l v Hgt Hge) as [Hsig Hc]. auto.
  - right; right.
    destruct (buildSignal_hold now l v Hnb Hns) as [Hsig Hc]. auto.
Qed.

Lemma buildSignal_confidence_by_signal now l v :
  (0 <= buySignals v)%Z -> (0 <= sellSignals v)%Z ->
  (buySignals v + sellSignals v <= 6)%Z ->
  (signal (buildSignal now l v) <> HOLD
   /\ (exists k : Z,
         (60 <= k <= 90)%Z /\ confidence (buildSignal now l v) = of_Z k)
   /\ PrimFloat.ltb (confidence (buildSignal now l v)) 60 = false
   /\ PrimFloat.leb 50 (confidence (buildSignal now l v)) = true)
  \/ (signal (buildSignal now l v) = HOLD
      /\ confidence (buildSignal now l v) = 50%float).
Proof.
  intros Hb Hs H6.
  destruct (buildSignal_decided now l v Hb Hs)
    as [(Hsig & Hgt & Hge & Hc) | [(Hsig & Hgt & Hge & Hc)
                                  | (Hsig & _ & _ & Hc)]].
  - left. rewrite Hsig, Hc.
    destruct (directional_confidence (buySignals v)
                (buySignals v + sellSignals v))
      as (Hk & Hrange & Hlt & Hle); try lia.
    split; [discriminate |].
    split; [eexists; split; [exact Hrange | exact Hk] |].
    split; assumption.
  - left. rewrite Hsig, Hc.
    destruct (directional_confidence (sellSignals v)
                (buySignals v + sellSignals v))
      as (Hk & Hrange & Hlt & Hle); try lia.
    split; [discriminate |].
    split; [eexists; split; [exact Hrange | exact Hk] |].
    split; assumption.
  - right. split; assumption.
Qed.


(** ** The risk of the service's own signal *)

(** With a confidence below 60 the tier moves up and the caution clause is
    appended. *)
Lemma getRiskAssessment_unsure Math_pow prices sig :
  PrimFloat.ltb (confidence sig) 60 = true ->
  riskLevel (getRiskAssessment Math_pow prices sig)
  = escalate (fst (classifyVolatility (computeVolatility Math_pow prices)))
  /\ recommendation (getRiskAssessment Math_pow prices sig)
     = (snd (classifyVolatility (computeVolatility Math_pow prices))
        ++ cautionClause)%string.
Proof.
  intros Hc. rewrite getRiskAssessment_unfold. cbv zeta.
  unfold adjustForConfidence.
  destruct (classifyVolatility _) as [level text].
  rewrite Hc. simpl. destruct level; split; reflexivity.
Qed.

Lemma own_signal_confidence
  (lib : TechnicalIndicators) (toFixed : float -> nat -> string) (now : Z)
  (prices : list float) (volumes : option (list float)) :
  let r := getTradeSignal toFixed now prices volumes in
  (signal r = HOLD /\ PrimFloat.ltb (confidence r) 60 = true)
  \/ (signal r <> HOLD /\ PrimFloat.ltb (confidence r) 60 = false).
Proof.
  cbv zeta.
  destruct (getTradeSignal_cases toFixed now prices volumes)
    as [-> | [-> | (l & _ & ->)]].
  - left. split; reflexivity.
  - left. split; reflexivity.
  - destruct (accumulateVotes_bounds toFixed l volumes) as (Hb & Hs & H6).
    destruct (buildSignal_confidence_by_signal now l
                (accumulateVotes toFixed l volumes) Hb Hs H6)
      as [(Hsig & _ & Hlt & _) | (Hsig & Hc)].
    + right. split; assumption.
    + left. split; [exact Hsig | rewrite Hc; reflexivity].
Qed.

Lemma risk_of_own_signal_hold
  (lib : TechnicalIndicators) (toFixed : float -> nat -> string)
  (Math_pow : float -> float -> float) (now : Z) (prices : list float)
  (volumes : option (list float)) :
  signal (getTradeSignal toFixed now prices volumes) = HOLD ->
  riskLevel
    (getRiskAssessment Math_pow prices
       (getTradeSignal toFixed now prices volumes))
  <> LOW.
Proof.
  intros Hsig.
  destruct (own_signal_confidence lib toFixed now prices volumes)
    as [[_ Hlt] | [Hn _]]; [| contradiction].
  destruct (getRiskAssessment_unsure Math_pow prices _ Hlt) as [-> _].
  destruct (fst _); discriminate.
Qed.

(** When [getRiskAssessment] is given the signal that [getTradeSignal]
    returned, the tier is escalated exactly when that signal is HOLD: a
    HOLD never comes with LOW risk and always carries the caution clause;
    a BUY or a SELL comes with the tier and the text of the volatility
    alone. *)
Theorem risk_of_own_signal
  (lib : TechnicalIndicators) (toFixed : float -> nat -> string)
  (Math_pow : float -> float -> float) (now : Z) (prices : list float)
  (volumes : option (list float)) :
  let r := getTradeSignal toFixed now prices volumes in
  let risk := getRiskAssessment Math_pow prices r in
  let base := classifyVolatility (computeVolatility Math_pow prices) in
  (signal r = HOLD ->
   riskLevel risk = escalate (fst base)
   /\ riskLevel risk <> LOW
   /\ recommendation risk = (snd base ++ cautionClause)%string)
  /\ (signal r <> HOLD ->
      riskLevel risk = fst base /\ recommendation risk = snd base).
Proof.
  intros r risk base.
  pose proof (own_signal_confidence lib toFixed now prices volumes) as Hconf.
  cbv zeta in Hconf. fold r in Hconf.
  destruct Hconf as [[Hsig Hlt] | [Hsig Hlt]].
  - split; [intros _ | intros H; contradiction].
    destruct (getRiskAssessment_unsure Math_pow prices r Hlt)
      as (Hlevel & Htext).
    fold risk in Hlevel, Htext. fold base in Hlevel, Htext.
    split; [exact Hlevel |]. split; [| exact Htext].
    rewrite Hlevel. destruct (fst base); discriminate.
  - split; [intros H; contradiction | intros _].
    apply getRiskAssessment_confident. exact Hlt.
Qed.

(** ** Volumes cannot undo a direction *)

Lemma volumeAnalysis_none v : volumeAnalysis None v = v.
Proof. reflexivity. Qed.

Lemma signal_BUY_inv now l v :
  (0 <= buySignals v)%Z -> (0 <= sellSignals v)%Z ->
  signal (buildSignal now l v) = BUY ->
  (buySignals v > sellSignals v)%Z /\ (buySignals v >= 2)%Z.
Proof.
  intros Hb Hs Hsig.
  destruct (buildSignal_decided now l v Hb Hs)
    as [(_ & Hgt & Hge & _) | [(Hsig' & _) | (Hsig' & _)]];
    [split; assumption | |]; rewrite Hsig' in Hsig; discriminate Hsig.
Qed.

Lemma signal_SELL_inv now l v :
  (0 <= buySignals v)%Z -> (0 <= sellSignals v)%Z ->
  signal (buildSignal now l v) = SELL ->
  (sellSignals v > buySignals v)%Z /\ (sellSignals v >= 2)%Z.
Proof.
  intros Hb Hs Hsig.
  destruct (buildSignal_decided now l v Hb Hs)
    as [(Hsig' & _) | [(_ & Hgt & Hge & _) | (Hsig' & _)]];
    [| split; assumption |]; rewrite Hsig' in Hsig; discriminate Hsig.
Qed.

Lemma votesBeforeVolume_nonneg toFixed l :
  (0 <= buySignals (votesBeforeVolume toFixed l))%Z
  /\ (0 <= sellSignals (votesBeforeVolume toFixed l))%Z.
Proof.
  destruct (accumulateVotes_bounds toFixed l None) as (Hb & Hs & _).
  split; assumption.
Qed.

(** The volume check never reverses or removes a direction: if the signal
    computed without volumes is BUY, it is BUY with any volumes, and
    likewise for SELL. (It can turn a HOLD into a BUY or a SELL.) *)
Theorem volumes_keep_the_direction
  (lib : TechnicalIndicators) (toFixed : float -> nat -> string) (now : Z)
  (prices : list float) (volumes : option (list float)) :
  (signal (getTradeSignal toFixed now prices None) = BUY ->
   signal (getTradeSignal toFixed now prices volumes) = BUY)
  /\ (signal (getTradeSignal toFixed now prices None) = SELL ->
      signal (getTradeSignal toFixed now prices volumes) = SELL).
Proof.
  unfold getTradeSignal, tradeSignalBody.
  destruct (List.length prices <? 50)%nat;
    [split; intros H; discriminate H |].
  destruct (computeLatest prices) as [l | e];
    [| split; intros H; discriminate H].
  cbn [try_catch bind]. unfold accumulateVotes.
  rewrite !volumeAnalysis_none.
  set (v := votesBeforeVolume toFixed l).
  destruct (votesBeforeVolume_nonneg toFixed l) as [Hb Hs].
  fold v in Hb, Hs.
  pose proof (volumeAnalysis_grows volumes v) as (Hgb & Hgs & _).
  destruct (volumeAnalysis_reinforces volumes v) as [Hrb Hrs].
  split; intros Hsig.
  - destruct (signal_BUY_inv now l v Hb Hs Hsig) as [Hgt Hge].
    assert (Hsame : sellSignals (volumeAnalysis volumes v) = sellSignals v).
    { destruct (Z.eq_dec (sellSignals (volumeAnalysis volumes v))
                  (sellSignals v)) as [E | E]; [exact E |].
      apply Hrs in E. lia. }
    apply buildSignal_buy; lia.
  - destruct (signal_SELL_inv now l v Hb Hs Hsig) as [Hgt Hge].
    assert (Hsame : buySignals (volumeAnalysis volumes v) = buySignals v).
    { destruct (Z.eq_dec (buySignals (volumeAnalysis volumes v))
                  (buySignals v)) as [E | E]; [exact E |].
      apply Hrb in E. lia. }
    apply buildSignal_sell; lia.
Qed.

Example volume_spike_turns_a_hold_into_a_buy :
  let series := alternating 50 100 101 ++ [100.5%float] in
  signal (getTradeSignal toFixed 0 series None) = HOLD
  /\ signal (getTradeSignal toFixed 0 series (Some spikeVolumes)) = BUY
  /\ reason (getTradeSignal toFixed 0 series (Some spikeVolumes))
     = "Strong buy signal: MACD bullish crossover".
Proof. cbv zeta. repeat split; vm_compute; reflexivity. Qed.

(** ** The snapshot *)

Lemma or_zero_not_nan (o : option float) :
  PrimFloat.is_nan (or_zero o) = false.
Proof.
  unfold or_zero. destruct (truthy o) eqn:Ht; [| reflexivity].
  destruct o as [x |]; [| discriminate Ht].
  simpl in *. unfold truthy_number in Ht.
  destruct (PrimFloat.is_nan x); [discriminate Ht | reflexivity].
Qed.

Lemma or_zero_keeps (o : option float) (x : float) :
  o = Some x -> truthy_number x = true -> or_zero o = x.
Proof. intros -> Ht. unfold or_zero. simpl. rewrite Ht. reflexivity. Qed.

(** The [rsi], [sma20] and [ema12] fields of the snapshot are never [NaN],
    whatever the indicator package returned: an [undefined], a [NaN] or a
    zero latest value is shown as 0. *)
Theorem snapshot_numbers_are_not_nan
  (lib : TechnicalIndicators) (toFixed : float -> nat -> string) (now : Z)
  (prices : list float) (volumes : option (list float)) :
  let snapshot := indicators (getTradeSignal toFixed now prices volumes) in
  PrimFloat.is_nan (rsi snapshot) = false
  /\ PrimFloat.is_nan (sma20 snapshot) = false
  /\ PrimFloat.is_nan (ema12 snapshot) = false.
Proof.
  cbv zeta.
  destruct (getTradeSignal_cases toFixed now prices volumes)
    as [-> | [-> | (l & _ & ->)]].
  - repeat split; reflexivity.
  - repeat split; reflexivity.
  - unfold buildSignal. destruct (finalSignal _) as [[sig conf] text].
    simpl. repeat split; apply or_zero_not_nan.
Qed.

(** ** When the indicator package throws *)

(** If any of the five indicator calls throws on a series of at least 50
    prices, the caller gets no exception but the signal HOLD with
    confidence 0, the reason that the computation failed, and the
    zero/null snapshot. *)
Theorem indicator_failure_is_caught
  (lib : TechnicalIndicators) (toFixed : float -> nat -> string) (now : Z)
  (prices : list float) (volumes : option (list float)) :
  (50 <= List.length prices)%nat ->
  (exists e, RSI_calculate prices 14 = Thrown e)
  \/ (exists e, MACD_calculate prices 12 26 9 false false = Thrown e)
  \/ (exists e, BollingerBands_calculate prices 20 2%float = Thrown e)
  \/ (exists e, SMA_calculate prices 20 = Thrown e)
  \/ (exists e, EMA_calculate prices 12 = Thrown e) ->
  getTradeSignal toFixed now prices volumes
  = {| signal := HOLD;
       confidence := 0%float;
       reason := "Error computing signal. Please try again.";
       indicators :=
         {| rsi := 0%float; macd := None; bollingerBands := None;
            sma20 := 0%float; ema12 := 0%float |};
       timestamp := now |}.
Proof.
  intros Hlen Hthrown.
  assert (Hl : exists e, computeLatest prices = Thrown e).
  { unfold computeLatest.
    destruct (RSI_calculate prices 14) as [a1 | e1];
      [| eexists; reflexivity].
    destruct (MACD_calculate prices 12 26 9 false false) as [a2 | e2];
      [| eexists; reflexivity].
    destruct (BollingerBands_calculate prices 20 2%float) as [a3 | e3];
      [| eexists; reflexivity].
    destruct (SMA_calculate prices 20) as [a4 | e4];
      [| eexists; reflexivity].
    destruct (EMA_calculate prices 12) as [a5 | e5];
      [| eexists; reflexivity].
    destruct Hthrown as [[e H] | [[e H] | [[e H] | [[e H] | [e H]]]]];
      discriminate H. }
  destruct Hl as [e Hl].
  rewrite (getTradeSignal_thrown toFixed now prices volumes e Hlen Hl).
  reflexivity.
Qed.

Lemma indicator_failure_is_caught_witness :
  signal
    (@getTradeSignal throwingIndicators toFixed 0 (ascending 60) None)
  = HOLD
  /\ confidence
       (@getTradeSignal throwingIndicators toFixed 0 (ascending 60) None)
     = 0%float.
Proof.
  rewrite
    (indicator_failure_is_caught throwingIndicators toFixed 0 (ascending 60)
       None).
  - split; reflexivity.
  - vm_compute. lia.
  - right; right; right; right. exists "Invalid period". reflexivity.
Defined.

(** ** What the panel shows *)

Lemma buildSignal_reason_cases now l v :
  (exists rest, reason (buildSignal now l v)
                = ("Strong buy signal: " ++ rest)%string)
  \/ (exists rest, reason (buildSignal now l v)
                   = ("Strong sell signal: " ++ rest)%string)
  \/ reason (buildSignal now l v)
     = ("Mixed signals or insufficient conviction. "
        ++ "Consider waiting for clearer trend.")%string.
Proof.
  unfold buildSignal, finalSignal.
  destruct (_ && _); [left; eexists; reflexivity |].
  destruct (_ && _); [right; left; eexists; reflexivity |].
  right; right. reflexivity.
Qed.

(** The panel has an analysis exactly when there is data with at least 50
    prices. The signal it then shows is never the insufficient-data one,
    its confidence chip is coloured "error" exactly when an indicator call
    threw, and a HOLD is never shown with LOW risk. *)
Theorem analysis_of_the_panel
  (lib : TechnicalIndicators) (toFixed : float -> nat -> string)
  (Math_pow : float -> float -> float) (now : Z)
  (data : option Api.CryptoData) (prices volumes : list float) :
  (TradeBot.analysis toFixed Math_pow now data prices volumes = None
   <-> data = None \/ (List.length prices < 50)%nat)
  /\ forall sig risk,
       TradeBot.analysis toFixed Math_pow now data prices volumes
       = Some (sig, risk) ->
       sig = getTradeSignal toFixed now prices (Some volumes)
       /\ risk = getRiskAssessment Math_pow prices sig
       /\ reason sig <> reason (insufficientDataSignal now)
       /\ (TradeBot.confidenceColor (confidence sig) = "error"
           <-> exists e, computeLatest prices = Thrown e)
       /\ (signal sig = HOLD -> riskLevel risk <> LOW).
Proof.
  unfold TradeBot.analysis. split.
  - destruct data as [d |]; [| split; auto].
    destruct (List.length prices <? 50)%nat eqn:Hlen.
    + apply Nat.ltb_lt in Hlen. split; auto.
    + apply Nat.ltb_ge in Hlen. split; [discriminate |].
      intros [H | H]; [discriminate H | lia].
  - intros sig risk Hshown.
    destruct data as [d |]; [| discriminate Hshown].
    destruct (List.length prices <? 50)%nat eqn:Hlen; [discriminate Hshown |].
    apply Nat.ltb_ge in Hlen.
    injection Hshown as Hsig Hrisk. subst risk sig.
    split; [reflexivity |]. split; [reflexivity |].
    assert (Hhold :
      signal (getTradeSignal toFixed now prices (Some volumes)) = HOLD ->
      riskLevel
        (getRiskAssessment Math_pow prices
           (getTradeSignal toFixed now prices (Some volumes)))
      <> LOW)
      by apply risk_of_own_signal_hold.
    destruct (computeLatest prices) as [l | e] eqn:Hl.
    + rewrite (getTradeSignal_long toFixed now prices (Some volumes) l
                 Hlen Hl) in *.
      destruct (accumulateVotes_bounds toFixed l (Some volumes))
        as (Hb & Hs & H6).
      split.
      { destruct (buildSignal_reason_cases now l
                    (accumulateVotes toFixed l (Some volumes)))
          as [[rest ->] | [[rest ->] | ->]]; simpl; discriminate. }
      split; [| exact Hhold].
      split; [| intros [e He]; discriminate He].
      intros Hcolor. exfalso.
      unfold TradeBot.confidenceColor in Hcolor.
      destruct (buildSignal_confidence_by_signal now l
                  (accumulateVotes toFixed l (Some volumes)) Hb Hs H6)
        as [(_ & _ & _ & Hle) | (_ & Hc)].
      * rewrite Hle in Hcolor.
        destruct (PrimFloat.leb 70 _); discriminate Hcolor.
      * rewrite Hc in Hcolor. vm_compute in Hcolor. discriminate Hcolor.
    + rewrite (getTradeSignal_thrown toFixed now prices (Some volumes) e
                 Hlen Hl) in *.
      split; [simpl; discriminate |].
      split; [| exact Hhold].
      split; [intros _; exists e; reflexivity |].
      intros _. vm_compute. reflexivity.
Qed.

(** ** The state of the hook *)

Module HookFacts.

Import UseTradingData.

Lemma errorMessage_not_empty message : errorMessage message <> "".
Proof.
  unfold errorMessage. destruct message as [m |]; [| discriminate].
  destruct (String.eqb m "") eqn:E; [discriminate |].
  now apply String.eqb_neq.
Qed.

Lemma consistent_initialState : consistent initialState.
Proof.
  unfold consistent, initialState. simpl.
  repeat split; try discriminate; intros H; now elim H.
Qed.

Lemma consistent_update st u : consistent st -> consistent (update st u).
Proof.
  intros (Hpair & Hmsg & Herr & Hload).
  destruct u as [| result now | message]; unfold consistent; simpl.
  - repeat split; try (apply Hpair); try discriminate.
    intros H; now elim H.
  - repeat split; try discriminate.
    + intros _. left. discriminate.
  - repeat split; try (apply Hpair).
    + intros H. injection H as H. now apply errorMessage_not_empty in H.
    + intros _. right. discriminate.
Qed.

Lemma consistent_updates us st : consistent st -> consistent (updates us st).
Proof.
  revert st. induction us as [| u us IH]; intros st Hst; [exact Hst |].
  unfold updates. simpl. apply IH. now apply consistent_update.
Qed.

End HookFacts.

(** However the updates of overlapping fetches are interleaved, the state
    of the hook keeps four facts: [data] and [lastUpdated] are null
    together; [error] is never the empty string; an error is only shown
    when not loading; and when not loading there is data or an error. *)
Theorem hook_state_is_consistent (us : list UseTradingData.Update) :
  let st := UseTradingData.updates us UseTradingData.initialState in
  (UseTradingData.data st = None <-> UseTradingData.lastUpdated st = None)
  /\ UseTradingData.error st <> Some ""
  /\ (UseTradingData.error st <> None -> UseTradingData.loading st = false)
  /\ (UseTradingData.loading st = false ->
      UseTradingData.data st <> None \/ UseTradingData.error st <> None).
Proof.
  apply (HookFacts.consistent_updates us UseTradingData.initialState).
  apply HookFacts.consistent_initialState.
Qed.

(** One fetch, run from the state [prev]: when the request succeeds the
    state holds the response, no error and the time of the response; when
    it fails, whatever the error was, the state keeps the previous data and
    time and the error shown is "Failed to fetch data for" the coin. In
    both cases loading is over. *)
Theorem fetchData_result
  (get : Api.Request -> outcome Api.Response) (now : Z)
  (coinId days : string) (prev : UseTradingData.TradingDataState) :
  let st :=
    UseTradingData.updates (UseTradingData.fetchData get now coinId days)
      prev in
  match get (Api.marketChartRequest coinId days "usd") with
  | Returned response =>
      st = {| UseTradingData.data := Some (Api.data response);
              UseTradingData.loading := false;
              UseTradingData.error := None;
              UseTradingData.lastUpdated := Some now |}
  | Thrown _ =>
      st = {| UseTradingData.data := UseTradingData.data prev;
              UseTradingData.loading := false;
              UseTradingData.error :=
                Some ("Failed to fetch data for " ++ coinId)%string;
              UseTradingData.lastUpdated :=
                UseTradingData.lastUpdated prev |}
  end.
Proof.
  cbv zeta. unfold UseTradingData.fetchData, Api.fetchCryptoData.
  destruct (get (Api.marketChartRequest coinId days "usd")) as [r | e];
    reflexivity.
Qed.

(** ** The derived arrays and helpers of the hook *)

(** The prices and the timestamps the hook hands over always have the same
    length; without data the three arrays are empty, the current price is 0
    and both price changes are 0; and the current price is never [NaN]. *)
Theorem hook_derived_values (st : UseTradingData.TradingDataState) :
  List.length (UseTradingData.prices st)
  = List.length (UseTradingData.timestamps st)
  /\ PrimFloat.is_nan (UseTradingData.getCurrentPrice st) = false
  /\ (UseTradingData.data st = None ->
      UseTradingData.prices st = []
      /\ UseTradingData.timestamps st = []
      /\ UseTradingData.volumes st = []
      /\ UseTradingData.getCurrentPrice st = 0%float
      /\ UseTradingData.getPriceChange st = 0%float
      /\ UseTradingData.getPriceChangeFromStart st = 0%float).
Proof.
  split; [| split].
  - unfold UseTradingData.prices, UseTradingData.timestamps.
    destruct (UseTradingData.data st); [| reflexivity].
    now rewrite !length_map.
  - apply or_zero_not_nan.
  - intros Hnone.
    unfold UseTradingData.getCurrentPrice, UseTradingData.getPriceChange,
      UseTradingData.getPriceChangeFromStart, UseTradingData.prices,
      UseTradingData.timestamps, UseTradingData.volumes.
    rewrite Hnone. repeat split; reflexivity.
Qed.

Lemma last_elem_mapi_from {A B : Type} (f : A -> nat -> B) (l : list A)
  (i : nat) :
  last_elem (mapi_from i f l)
  = option_map (fun x => f x (i + List.length l - 1)) (last_elem l).
Proof.
  revert i. induction l as [| x l IH]; intros i; [reflexivity |].
  destruct l as [| y l'].
  - simpl. now rewrite Nat.add_sub.
  - change (mapi_from i f (x :: y :: l'))
      with (f x i :: mapi_from (S i) f (y :: l')).
    change (last_elem (x :: y :: l')) with (last_elem (y :: l')).
    transitivity (last_elem (mapi_from (S i) f (y :: l'))).
    + simpl. reflexivity.
    + rewrite IH. simpl List.length.
      replace (i + S (S (List.length l')) - 1)
        with (S i + S (List.length l') - 1) by lia.
      reflexivity.
Qed.

Lemma last_elem_nth_error {A : Type} (l : list A) :
  last_elem l = nth_error l (List.length l - 1).
Proof.
  induction l as [| x l IH]; [reflexivity |].
  destruct l as [| y l']; [reflexivity |].
  change (last_elem (x :: y :: l')) with (last_elem (y :: l')).
  rewrite IH. simpl. now rewrite Nat.sub_0_r.
Qed.

Lemma at_index_map_Some (l : list float) (i : nat) :
  UseTradingData.at_index (map Some l) i = nth_error l i.
Proof.
  unfold UseTradingData.at_index. rewrite nth_error_map.
  destruct (nth_error l i); reflexivity.
Qed.

Lemma computeVolatility_periodReturns Math_pow prices :
  computeVolatility Math_pow prices
  = let returns := periodReturns prices in
    let avgReturn :=
      (reduce PrimFloat.add 0 returns
       / of_Z (Z.of_nat (List.length returns)))%float in
    let variance :=
      (reduce (fun a b => a + Math_pow (b - avgReturn) 2) 0 returns
       / of_Z (Z.of_nat (List.length returns)))%float in
    (Math_sqrt variance * 100)%float.
Proof. reflexivity. Qed.

(** When every point of the chart has its price, and there are at least
    two, the price change the hook reports is, in percent, the last of the
    period returns whose deviation [getRiskAssessment] measures on the same
    prices. *)
Theorem price_change_is_the_last_return
  (st : UseTradingData.TradingDataState) (ps : list float) :
  UseTradingData.prices st = map Some ps ->
  (2 <= List.length ps)%nat ->
  UseTradingData.getPriceChange st
  = (num (last_elem (periodReturns ps)) * 100)%float.
Proof.
  intros Hps Hlen.
  unfold UseTradingData.getPriceChange. rewrite Hps, length_map.
  replace (List.length ps <? 2)%nat with false
    by (symmetry; apply Nat.ltb_ge; exact Hlen).
  cbv zeta. rewrite !at_index_map_Some.
  unfold periodReturns, mapi, slice_from_1.
  rewrite last_elem_mapi_from, last_elem_nth_error.
  destruct ps as [| p0 ps']; [simpl in Hlen; lia |].
  simpl tl. simpl List.length.
  replace (S (List.length ps') - 1)%nat with (S (List.length ps' - 1))
    by (simpl in Hlen; lia).
  replace (S (List.length ps') - 2)%nat with (0 + List.length ps' - 1)%nat
    by lia.
  change (nth_error (p0 :: ps') (S (List.length ps' - 1)))
    with (nth_error ps' (List.length ps' - 1)).
  destruct (nth_error ps' (List.length ps' - 1)) as [x |] eqn:Hx.
  - reflexivity.
  - exfalso. apply nth_error_None in Hx. simpl in Hlen. lia.
Qed.

Lemma price_change_is_the_last_return_witness :
  UseTradingData.getPriceChange threePoints
  = (num (last_elem (periodReturns [100; 110; 121])) * 100)%float.
Proof.
  apply (price_change_is_the_last_return threePoints [100; 110; 121]%float).
  - reflexivity.
  - simpl. lia.
Defined.

(** ** The Firebase configuration *)

Lemma env_or_empty_set (env : string -> option string) (name : string) :
  negb (String.eqb (Firebase.env_or_empty env name) "") = true
  <-> exists value, env name = Some value /\ value <> "".
Proof.
  unfold Firebase.env_or_empty. split.
  - destruct (env name) as [value |]; [| discriminate].
    intros H. exists value. split; [reflexivity |].
    apply String.eqb_neq. now apply negb_true_iff.
  - intros (value & -> & Hne).
    apply negb_true_iff. now apply String.eqb_neq.
Qed.

(** The configuration is complete, and nothing is written on the console,
    exactly when each of the six variables of the environment is set to a
    non-empty string. *)
Theorem firebase_config_complete (env : string -> option string) :
  (Firebase.isConfigComplete env = true
   <-> forall name, In name Firebase.variables ->
                    exists value, env name = Some value /\ value <> "")
  /\ (Firebase.warnings env = [] <-> Firebase.isConfigComplete env = true).
Proof.
  split.
  - unfold Firebase.isConfigComplete, Firebase.values, Firebase.firebaseConfig.
    simpl forallb. rewrite !andb_true_iff, !env_or_empty_set.
    unfold Firebase.variables. split.
    + intros (H1 & H2 & H3 & H4 & H5 & H6 & _) name Hin.
      simpl in Hin.
      destruct Hin as [<- | [<- | [<- | [<- | [<- | [<- | []]]]]]];
        assumption.
    + intros H.
      repeat split; try reflexivity; apply H; simpl; auto 10.
  - unfold Firebase.warnings.
    destruct (Firebase.isConfigComplete env); simpl; split;
      try reflexivity; discriminate.
Qed.
